(** * censorvideo: the video processor script (p.py)

    A shallow embedding of the script that blacks out a video, overlays a
    centred text and keeps the audio, by calling ffmpeg.  Python [str] values
    are lists of code points, the outside world (child processes, the file
    system, the platform) is a record of oracles, and the script's functions
    run in a small state-and-exception monad that records what is printed
    and which child processes are started. *)

From Stdlib Require Import String Ascii DecimalString ZArith NArith Bool Lia List.
Import ListNotations.
Open Scope list_scope.

(** ** Python strings *)

(** A [str] is a sequence of Unicode code points. *)
Definition char := N.
Definition str := list char.

(** An ASCII literal of the source, character by character. *)
Definition py (s : string) : str :=
  map N_of_ascii (list_ascii_of_string s).

Definition nl : str := [10%N].
Definition cr : str := [13%N].
Definition dquote : str := [34%N].
Definition squote : char := 39%N.
Definition backslash : char := 92%N.
Definition colon : char := 58%N.

Fixpoint str_eqb (a b : str) : bool :=
  match a, b with
  | [], [] => true
  | x :: a', y :: b' => N.eqb x y && str_eqb a' b'
  | _, _ => false
  end.

Fixpoint starts_with (pat s : str) : bool :=
  match pat, s with
  | [], _ => true
  | p :: pat', c :: s' => N.eqb p c && starts_with pat' s'
  | _ :: _, [] => false
  end.

(** [s.endswith(pat)] *)
Definition ends_with (pat s : str) : bool :=
  starts_with (rev pat) (rev s).

(** [pat in s] *)
Fixpoint contains (pat s : str) : bool :=
  starts_with pat s ||
  match s with
  | [] => false
  | _ :: s' => contains pat s'
  end.

(** [str.replace(old, new)] for a non-empty [old]: scan left to right,
    replace each occurrence and resume after it ([skip] counts the
    characters of the occurrence still to be dropped). *)
Fixpoint replace_from (old new : str) (skip : nat) (s : str) : str :=
  match s with
  | [] => []
  | c :: s' =>
      match skip with
      | S k => replace_from old new k s'
      | O =>
          if starts_with old s
          then new ++ replace_from old new (List.length old - 1) s'
          else c :: replace_from old new 0 s'
      end
  end.

(** [s.replace(old, new)]; with an empty [old] Python puts [new] before
    every character and at the end. *)
Definition replace (old new s : str) : str :=
  match old with
  | [] => new ++ flat_map (fun c => c :: new) s
  | _ :: _ => replace_from old new 0 s
  end.

(** The characters [str.strip] and [str.rstrip] remove when called without
    argument: those for which [str.isspace] holds. *)
Definition isspace (c : char) : bool :=
  ((9 <=? c) && (c <=? 13) || (28 <=? c) && (c <=? 32) ||
   (c =? 133) || (c =? 160) || (c =? 5760) ||
   (8192 <=? c) && (c <=? 8202) ||
   (c =? 8232) || (c =? 8233) || (c =? 8239) || (c =? 8287) ||
   (c =? 12288))%N.

Fixpoint lstrip (s : str) : str :=
  match s with
  | [] => []
  | c :: s' => if isspace c then lstrip s' else s
  end.

Definition rstrip (s : str) : str := rev (lstrip (rev s)).
Definition strip (s : str) : str := rstrip (lstrip s).

(** [str(n)] and [f"{n}"] for an [int]. *)
Definition str_of_int (n : Z) : str :=
  py (NilZero.string_of_int (Z.to_int n)).

(** Insert a comma after every third digit of a reversed digit string. *)
Fixpoint commas_rev (k : nat) (ds : str) : str :=
  match ds with
  | [] => []
  | d :: r =>
      match r with
      | [] => [d]
      | _ :: _ =>
          match k with
          | 2%nat => d :: 44%N :: commas_rev 0 r
          | _ => d :: commas_rev (S k) r
          end
      end
  end.

(** [f"{n:,}"] for an [int]. *)
Definition format_commas (n : Z) : str :=
  (if (n <? 0)%Z then py "-" else []) ++
  rev (commas_rev 0 (rev (str_of_int (Z.abs n)))).

(** ["=" * 60] *)
Definition rule : str := repeat 61%N 60.

(** ** Exceptions *)

(** The exceptions the script distinguishes.  [KeyboardInterrupt] derives
    from [BaseException] only; all the others derive from [Exception]. *)
Inductive exn : Type :=
| FileNotFoundError (msg : str)
| TimeoutExpired (msg : str)
| OtherException (name msg : str)
| KeyboardInterrupt.

(** [isinstance(e, Exception)] *)
Definition is_Exception (e : exn) : bool :=
  match e with
  | KeyboardInterrupt => false
  | _ => true
  end.

(** [type(e).__name__] *)
Definition type_name (e : exn) : str :=
  match e with
  | FileNotFoundError _ => py "FileNotFoundError"
  | TimeoutExpired _ => py "TimeoutExpired"
  | OtherException name _ => name
  | KeyboardInterrupt => py "KeyboardInterrupt"
  end.

(** [str(e)] *)
Definition str_of_exn (e : exn) : str :=
  match e with
  | FileNotFoundError msg | TimeoutExpired msg | OtherException _ msg => msg
  | KeyboardInterrupt => []
  end.

Inductive res (A : Type) : Type :=
| Ret (a : A)
| Raise (e : exn).
Arguments Ret {A} a.
Arguments Raise {A} e.

(** ** The outside world *)

(** What a call of [subprocess.run(argv, ..., timeout=5)] can do. *)
Inductive run_outcome : Type :=
| NotLaunched (e : exn)     (* no child was started; [run] raises [e] *)
| Completed (returncode : Z) (* the child ran and exited in time *)
| Interrupted (e : exn).    (* a child was started, then [run] raises [e] *)

(** The exception [subprocess.run] raises, if it does. *)
Definition raised (o : run_outcome) : option exn :=
  match o with
  | NotLaunched e | Interrupted e => Some e
  | Completed _ => None
  end.

(** The lookups that can fail with an [OSError]. *)
Inductive lookup : Type :=
| Exists   (* Path.exists, os.path.exists *)
| IsFile   (* Path.is_file *)
| Stat.    (* Path.stat, os.path.getsize *)

(** The file system, as far as the script looks at it: what is there,
    and which lookups the operating system refuses on which paths (with
    an [OSError] other than "no such file": permission denied on a
    directory of the path, a name that is too long, ...). *)
Record FS : Type := mkFS {
  fs_exists : str -> bool;    (* the path names a file or directory *)
  fs_is_file : str -> bool;   (* it is a regular file *)
  fs_size : str -> Z;         (* its size in bytes *)
  fs_writable : str -> bool;
      (* os.access(p, os.W_OK), which reports a check that fails as False *)
  fs_error : lookup -> str -> option (str * str)
      (* the class name and text of the OSError the lookup raises *)
}.

(** The [OSError] a lookup raises. *)
Definition os_error (d : str * str) : exn := OtherException (fst d) (snd d).

(** [Path(p).exists()]: "no such file" is [False], any other [OSError]
    is raised. *)
Definition path_exists (files : FS) (p : str) : res bool :=
  match fs_error files Exists p with
  | Some d => Raise (os_error d)
  | None => Ret (fs_exists files p)
  end.

(** [Path(p).is_file()] *)
Definition path_is_file (files : FS) (p : str) : res bool :=
  match fs_error files IsFile p with
  | Some d => Raise (os_error d)
  | None => Ret (fs_is_file files p)
  end.

(** [Path(p).stat().st_size] and [os.path.getsize(p)] *)
Definition stat_size (files : FS) (p : str) : res Z :=
  match fs_error files Stat p with
  | Some d => Raise (os_error d)
  | None =>
      if fs_exists files p then Ret (fs_size files p)
      else Raise (FileNotFoundError
                    (py "[Errno 2] No such file or directory: '" ++ p ++ py "'"))
  end.

(** [os.path.exists(p)]: every [OSError] is [False]. *)
Definition os_path_exists (files : FS) (p : str) : bool :=
  match fs_error files Exists p with
  | Some _ => false
  | None => fs_exists files p
  end.

(** How the child started by [subprocess.Popen] ends, after its output
    lines were read; [after] are the files as the child has left them by
    then. *)
Inductive child_end : Type :=
| ReadRaises (e : exn) (after : FS)    (* reading or waiting raises *)
| Exits (returncode : Z) (after : FS). (* exit code *)

Inductive popen_outcome : Type :=
| PopenRaises (e : exn)
| PopenRuns (lines : list str) (fin : child_end).

(** The namespace [parser.parse_args()] returns. *)
Record Args : Type := mkArgs {
  arg_input : str;
  arg_output : str;
  arg_text : str;
  arg_font_size : Z;
  arg_font_color : str
}.

(** [argparse] either returns the arguments or raises [SystemExit(code)]. *)
Inductive parse_result : Type :=
| Parsed (a : Args)
| ParserExit (code : Z).

Record World : Type := mkWorld {
  platform : str;                              (* sys.platform *)
  environ_get : str -> str -> str;             (* os.environ.get(k, default) *)
  path_join : list str -> str;                 (* os.path.join *)
  path_parent : str -> str;                    (* str(Path(p).parent) *)
  abspath : str -> res str;                    (* os.path.abspath *)
  getcwd : res str;                            (* os.getcwd() *)
  listdir : str -> res (list str);             (* os.listdir *)
  glob : str -> list str;                      (* glob.glob *)
  subprocess_run : nat -> list str -> run_outcome;
      (* the outcome of the n-th call of subprocess.run, counted from 0 *)
  popen : list str -> popen_outcome;           (* subprocess.Popen *)
  parse_args : list str -> parse_result;       (* the argparse parser *)
  init_fs : FS                                 (* the files at start *)
}.

(** ** What a run does *)

Inductive event : Type :=
| Print (s : str)           (* text written to standard output *)
| PrintExc (e : exn)        (* traceback.print_exc() *)
| Spawn (argv : list str).  (* a child process is started *)

Record state : Type := mkState {
  calls : nat;        (* calls of subprocess.run so far *)
  fs : FS;            (* the file system now *)
  out : list event    (* what happened so far, oldest first *)
}.

Definition M (A : Type) : Type := state -> res A * state.

Definition ret {A} (a : A) : M A := fun s => (Ret a, s).
Definition raise {A} (e : exn) : M A := fun s => (Raise e, s).

Definition bind {A B} (m : M A) (k : A -> M B) : M B :=
  fun s =>
    match m s with
    | (Ret a, s') => k a s'
    | (Raise e, s') => (Raise e, s')
    end.

(** [try: m except ...: h]: [h e] is the handler of the first [except]
    clause that matches [e], if one does. *)
Definition try_except {A} (m : M A) (h : exn -> option (M A)) : M A :=
  fun s =>
    match m s with
    | (Ret a, s') => (Ret a, s')
    | (Raise e, s') =>
        match h e with
        | Some k => k s'
        | None => (Raise e, s')
        end
    end.

Declare Scope monad_scope.
Delimit Scope monad_scope with monad.
Notation "x <- m ;; k" := (bind m (fun x => k))
  (at level 61, m at next level, right associativity) : monad_scope.
Notation "m ;; k" := (bind m (fun _ => k))
  (at level 61, right associativity) : monad_scope.
Open Scope monad_scope.

Definition emit (e : event) : M unit :=
  fun s => (Ret tt, mkState (calls s) (fs s) (out s ++ [e])).

(** [print(s)] *)
Definition print (s : str) : M unit := emit (Print (s ++ nl)).
(** [print(s, end='', flush=True)] *)
Definition print_noend (s : str) : M unit := emit (Print s).

Definition get_fs : M FS := fun s => (Ret (fs s), s).

(** A call that answers or raises and changes nothing. *)
Definition call {A} (r : res A) : M A := fun s => (r, s).
Definition set_fs (f : FS) : M unit :=
  fun s => (Ret tt, mkState (calls s) f (out s)).

(** [for x in xs: body(x)] *)
Fixpoint for_each {A} (xs : list A) (body : A -> M unit) : M unit :=
  match xs with
  | [] => ret tt
  | x :: xs' => body x ;; for_each xs' body
  end.

Definition start (w : World) : state := mkState 0 (init_fs w) [].

(** ** The script *)

Section Script.

Variable w : World.

(** [subprocess.run(argv, stdout=PIPE, stderr=PIPE, text=True, timeout=5)];
    the result is the return code of the completed child. *)
Definition run_probe (argv : list str) : M Z :=
  fun s =>
    let counted := mkState (S (calls s)) (fs s) (out s) in
    let spawned := mkState (S (calls s)) (fs s) (out s ++ [Spawn argv]) in
    match subprocess_run w (calls s) argv with
    | NotLaunched e => (Raise e, counted)
    | Completed returncode => (Ret returncode, spawned)
    | Interrupted e => (Raise e, spawned)
    end.

Definition program_files_locations : list str :=
  [ py "C:\Program Files\ffmpeg\bin\ffmpeg.exe";
    py "C:\ffmpeg\bin\ffmpeg.exe" ].

(** The glob pattern of the WinGet installation, built from
    [os.environ.get('LOCALAPPDATA', '')]. *)
Definition winget_pattern : str :=
  path_join w
    [ environ_get w (py "LOCALAPPDATA") [];
      py "Microsoft"; py "WinGet"; py "Packages";
      py "Gyan.FFmpeg*"; py "ffmpeg-*"; py "bin"; py "ffmpeg.exe" ].

(** [find_ffmpeg()]: [None] is the absent sentinel. *)
Definition find_ffmpeg : M (option str) :=
  in_path <-
    try_except
      (run_probe [py "ffmpeg"; py "-version"] ;;
       ret (Some (py "ffmpeg")))
      (fun e =>
         match e with
         | FileNotFoundError _ | TimeoutExpired _ => Some (ret None)
         | _ => None
         end) ;;
  match in_path with
  | Some p => ret (Some p)
  | None =>
      if str_eqb (platform w) (py "win32") then
        match glob w winget_pattern with
        | m :: _ => ret (Some m)
        | [] =>
            files <- get_fs ;;
            ret (find (os_path_exists files) program_files_locations)
        end
      else ret None
  end.

(** [check_ffmpeg()] *)
Definition check_ffmpeg : M (option str) :=
  found <- find_ffmpeg ;;
  match found with
  | None =>
      print (nl ++ [10007%N] ++ py " ERROR: FFmpeg not found!") ;;
      print (nl ++ py "FFmpeg is required but not installed or not in your PATH.") ;;
      print (nl ++ py "Installation instructions:") ;;
      print (py "  Windows: ") ;;
      print (py "    1. Download from https://ffmpeg.org/download.html") ;;
      print (py "    2. Or use: winget install ffmpeg") ;;
      print (py "    3. Or use chocolatey: choco install ffmpeg") ;;
      print (py "  Ubuntu/Debian: sudo apt-get install ffmpeg") ;;
      print (py "  macOS: brew install ffmpeg") ;;
      ret None
  | Some ffmpeg_path =>
      try_except
        (run_probe [ffmpeg_path; py "-version"] ;;
         print ([10003%N] ++ py " FFmpeg found: " ++ ffmpeg_path) ;;
         ret (Some ffmpeg_path))
        (fun e =>
           match e with
           | TimeoutExpired _ =>
               Some (print (nl ++ [10007%N] ++ py " ERROR: FFmpeg check timed out") ;;
                     ret None)
           | KeyboardInterrupt => None
           | _ =>
               Some (print (nl ++ [10007%N] ++ py " ERROR checking FFmpeg: "
                            ++ str_of_exn e) ;;
                     ret None)
           end)
  end.

Definition media_suffixes : list str :=
  [py ".mp4"; py ".MP4"; py ".avi"; py ".mov"].

(** [validate_input_file(input_file)] *)
Definition validate_input_file (input_file : str) : M bool :=
  files <- get_fs ;;
  found <- call (path_exists files input_file) ;;
  if negb found then
    print (nl ++ [10007%N] ++ py " ERROR: Input file not found: " ++ input_file) ;;
    cwd <- call (getcwd w) ;;
    print (nl ++ py "Current directory: " ++ cwd) ;;
    print (nl ++ py "Files in current directory:") ;;
    try_except
      (match listdir w (py ".") with
       | Ret names =>
           for_each names (fun f =>
             if existsb (fun suffix => ends_with suffix f) media_suffixes
             then print (py "  - " ++ f)
             else ret tt)
       | Raise e => raise e
       end)
      (fun e =>
         if is_Exception e
         then Some (print (py "  Could not list files: " ++ str_of_exn e))
         else None) ;;
    ret false
  else
    regular <- call (path_is_file files input_file) ;;
    if negb regular then
      print (nl ++ [10007%N] ++ py " ERROR: Input path is not a file: " ++ input_file) ;;
      ret false
    else
      st_size <- call (stat_size files input_file) ;;
      if (st_size =? 0)%Z then
        print (nl ++ [10007%N] ++ py " ERROR: Input file is empty: " ++ input_file) ;;
        ret false
      else
        st_size' <- call (stat_size files input_file) ;;
        print ([10003%N] ++ py " Input file found: " ++ input_file ++ py " ("
               ++ format_commas st_size' ++ py " bytes)") ;;
        ret true.

(** [validate_output_path(output_file)] *)
Definition validate_output_path (output_file : str) : M bool :=
  files <- get_fs ;;
  let parent_dir := path_parent w output_file in
  parent_found <- call (path_exists files parent_dir) ;;
  if negb parent_found then
    print (nl ++ [10007%N] ++ py " ERROR: Output directory does not exist: "
           ++ parent_dir) ;;
    ret false
  else if negb (fs_writable files parent_dir) then
    print (nl ++ [10007%N] ++ py " ERROR: No write permission in output directory: "
           ++ parent_dir) ;;
    ret false
  else
    existing <- call (path_exists files output_file) ;;
    (if existing
     then print ([9888%N] ++ py " Warning: Output file already exists and will be overwritten: "
                 ++ output_file)
     else ret tt) ;;
    print ([10003%N] ++ py " Output path is valid: " ++ output_file) ;;
    ret true.

(** The text escaped for the ffmpeg filter (the two chained
    [replace] calls of [process_video]). *)
Definition escape_text (text : str) : str :=
  replace (py ":") (py "\:")
    (replace (py "'") (py "'\\\''") text).

(** The [-vf] argument: the f-string pieces of [process_video], in order. *)
Definition filter_expr (text : str) (font_size : Z) (font_color : str) : str :=
  py "drawbox=color=black@1.0:t=fill," ++
  py "drawtext=" ++
  (py "text='" ++ escape_text text ++ py "':") ++
  (py "fontsize=" ++ str_of_int font_size ++ py ":") ++
  (py "fontcolor=" ++ font_color ++ py ":") ++
  py "x=(w-text_w)/2:" ++
  py "y=(h-text_h)/2".

(** The [command] list of [process_video]. *)
Definition build_command (ffmpeg_path input_file output_file text : str)
    (font_size : Z) (font_color : str) : list str :=
  [ ffmpeg_path;
    py "-i"; input_file;
    py "-vf"; filter_expr text font_size font_color;
    py "-c:a"; py "copy";
    py "-y";
    output_file ].

(** [xs[-n:]] for a positive [n]. *)
Definition last_n {A} (n : nat) (xs : list A) : list A :=
  skipn (List.length xs - n) xs.

(** [all_output[-30:] if len(all_output) > 30 else all_output] *)
Definition error_lines (all_output : list str) : list str :=
  if (30 <? List.length all_output)%nat then last_n 30 all_output
  else all_output.

(** The failure report printed for a non-zero return code. *)
Definition report_failure (returncode : Z) (all_output : list str) : M unit :=
  print (nl ++ nl ++ [10007%N] ++ py " FFmpeg failed with return code "
         ++ str_of_int returncode) ;;
  print (nl ++ rule) ;;
  print (py "FFMPEG ERROR OUTPUT:") ;;
  print rule ;;
  for_each (error_lines all_output) (fun line => print (rstrip line)) ;;
  print rule.

(** The [try] block of [process_video]: start ffmpeg, show its progress
    lines, wait for it and judge the result. *)
Definition run_command (command : list str) (output_file : str) : M bool :=
  try_except
    (match popen w command with
     | PopenRaises e => raise e
     | PopenRuns all_output fin =>
         emit (Spawn command) ;;
         for_each all_output (fun line =>
           if contains (py "time=") line || contains (py "frame=") line
           then print_noend (cr ++ firstn 80 (strip line))
           else ret tt) ;;
         match fin with
         | ReadRaises e after => set_fs after ;; raise e
         | Exits returncode after =>
             set_fs after ;;
             if negb (returncode =? 0)%Z then
               report_failure returncode all_output ;;
               ret false
             else
               files <- get_fs ;;
               if negb (os_path_exists files output_file) then
                 print (nl ++ nl ++ [10007%N] ++ py " ERROR: Output file was not created") ;;
                 ret false
               else
                 output_size <- call (stat_size files output_file) ;;
                 if (output_size =? 0)%Z then
                   print (nl ++ nl ++ [10007%N] ++ py " ERROR: Output file is empty") ;;
                   ret false
                 else
                   print (nl ++ nl ++ rule) ;;
                   print ([10003%N] ++ py " VIDEO PROCESSING COMPLETE!") ;;
                   print rule ;;
                   print (py "Output file: " ++ output_file) ;;
                   print (py "File size: " ++ format_commas output_size ++ py " bytes") ;;
                   location <- call (abspath w output_file) ;;
                   print (py "Location: " ++ location) ;;
                   ret true
         end
     end)
    (fun e =>
       match e with
       | TimeoutExpired _ =>
           Some (print (nl ++ nl ++ [10007%N] ++ py " ERROR: FFmpeg process timed out") ;;
                 ret false)
       | KeyboardInterrupt => None
       | _ =>
           Some (print (nl ++ nl ++ [10007%N] ++ py " ERROR during processing: "
                        ++ type_name e ++ py ": " ++ str_of_exn e) ;;
                 print (nl ++ py "Full error details:") ;;
                 emit (PrintExc e) ;;
                 ret false)
       end).

(** [process_video(input_file, output_file, text, font_size, font_color)] *)
Definition process_video (input_file output_file text : str)
    (font_size : Z) (font_color : str) : M bool :=
  print (nl ++ rule) ;;
  print (py "VIDEO PROCESSING STARTED") ;;
  print rule ;;
  checked <- check_ffmpeg ;;
  match checked with
  | None | Some [] => ret false
  | Some ffmpeg_path =>
      input_ok <- validate_input_file input_file ;;
      if negb input_ok then ret false else
      output_ok <- validate_output_path output_file ;;
      if negb output_ok then ret false else
      let command :=
        build_command ffmpeg_path input_file output_file text
          font_size font_color in
      print (nl ++ [128249%N] ++ py " Input: " ++ input_file) ;;
      print ([128190%N] ++ py " Output: " ++ output_file) ;;
      print ([128221%N] ++ py " Text: '" ++ text ++ py "'") ;;
      print ([127912%N] ++ py " Font: " ++ str_of_int font_size ++ py "pt "
             ++ font_color) ;;
      print (nl ++ py "Processing video (this may take a moment)...") ;;
      run_command command output_file
  end.

(** [main()], on the command line [argv]; the result is the status the
    script exits with ([sys.exit]). *)
Definition main (argv : list str) : M Z :=
  print rule ;;
  print (py "VIDEO PROCESSOR - Black Video with Text Overlay") ;;
  print rule ;;
  match parse_args w argv with
  | ParserExit code =>
      (if negb (code =? 0)%Z then
         print (nl ++ [9888%N] ++ py " Tip: Make sure to provide all required arguments:") ;;
         print (py "  python video_processor.py input.mp4 output.mp4 "
                ++ dquote ++ py "Your text" ++ dquote)
       else ret tt) ;;
      ret code
  | Parsed args =>
      fun s =>
        match process_video (arg_input args) (arg_output args) (arg_text args)
                (arg_font_size args) (arg_font_color args) s with
        | (Ret true, s') =>
            (print (nl ++ [127881%N] ++ py " Success! Your video is ready.") ;;
             ret 0%Z) s'
        | (Ret false, s') =>
            (print (nl ++ [10060%N] ++ py " Processing failed. Please check the errors above.") ;;
             ret 1%Z) s'
        | (Raise KeyboardInterrupt, s') =>
            (print (nl ++ nl ++ [9888%N] ++ py " Processing interrupted by user") ;;
             ret 1%Z) s'
        | (Raise e, s') =>
            (print (nl ++ nl ++ [10007%N] ++ py " UNEXPECTED ERROR: "
                    ++ type_name e ++ py ": " ++ str_of_exn e) ;;
             emit (PrintExc e) ;;
             ret 1%Z) s'
        end
  end.

End Script.

(** What a computation yields and does, from the start of a run. *)
Definition result {A} (w : World) (m : M A) : res A := fst (m (start w)).
Definition events {A} (w : World) (m : M A) : list event := out (snd (m (start w))).

(** The child processes a run started, in order. *)
Definition spawned (evs : list event) : list (list str) :=
  flat_map (fun e => match e with Spawn argv => [argv] | _ => [] end) evs.

(** ** Sample worlds, to run the script on *)

Module Sample.

Definition clip : str := py "clip.mp4".
Definition outfile : str := py "out.mp4".

(** The files before ffmpeg runs: a 10 MB [clip.mp4] in a writable
    current directory. *)
Definition files_before : FS :=
  mkFS (fun p => str_eqb p clip || str_eqb p (py "."))
       (fun p => str_eqb p clip)
       (fun p => if str_eqb p clip then 10485760%Z else 0%Z)
       (fun p => str_eqb p (py "."))
       (fun _ _ => None).

(** The files after a good run: [out.mp4] was written. *)
Definition files_after : FS :=
  mkFS (fun p => str_eqb p clip || str_eqb p outfile || str_eqb p (py "."))
       (fun p => str_eqb p clip || str_eqb p outfile)
       (fun p => if str_eqb p clip then 10485760%Z
                 else if str_eqb p outfile then 4096%Z else 0%Z)
       (fun p => str_eqb p (py "."))
       (fun _ _ => None).

(** A parser for the three positional arguments alone; anything else is a
    usage error (status 2). *)
Definition three_positionals (argv : list str) : parse_result :=
  match argv with
  | [i; o; t] => Parsed (mkArgs i o t 48 (py "white"))
  | _ => ParserExit 2
  end.

Definition ffmpeg_lines : list str :=
  [ py "ffmpeg version 6.0" ++ nl;
    py "frame=  240 fps= 60 time=00:00:08.00 bitrate= 100kbits/s" ++ nl ].

(** A machine on which everything works. *)
Definition good : World :=
  mkWorld (py "linux")
          (fun _ default => default)
          (fun parts => concat parts)
          (fun _ => py ".")
          (fun p => Ret (py "/home/user/" ++ p))
          (Ret (py "/home/user"))
          (fun _ => Ret [clip; py "notes.txt"])
          (fun _ => [])
          (fun _ _ => Completed 0)
          (fun _ => PopenRuns ffmpeg_lines (Exits 0 files_after))
          three_positionals
          files_before.

(** [good], with other child processes. *)
Definition with_children (run : nat -> list str -> run_outcome)
    (child : list str -> popen_outcome) : World :=
  mkWorld (platform good) (environ_get good) (path_join good)
          (path_parent good) (abspath good) (getcwd good) (listdir good)
          (glob good) run child (parse_args good) (init_fs good).

(** [good], with other files at start. *)
Definition with_files (files : FS) : World :=
  mkWorld (platform good) (environ_get good) (path_join good)
          (path_parent good) (abspath good) (getcwd good) (listdir good)
          (glob good) (subprocess_run good) (popen good) (parse_args good)
          files.

Definition argv0 : list str := [clip; outfile; py "Hello: World's Test"].
Definition hello : str := py "Hello: World's Test".

(** [clip.mp4] exists but is empty. *)
Definition files_empty_clip : FS :=
  mkFS (fs_exists files_before) (fs_is_file files_before)
       (fun _ => 0%Z) (fs_writable files_before) (fun _ _ => None).

Definition empty_input : World := with_files files_empty_clip.

(** ffmpeg exits 0 but leaves no [out.mp4]. *)
Definition no_output : World :=
  with_children (fun _ _ => Completed 0)
    (fun _ => PopenRuns ffmpeg_lines (Exits 0 files_before)).

(** ffmpeg writes 32 lines and exits with status 1. *)
Definition many_lines : list str :=
  map (fun n => py "error line " ++ str_of_int (Z.of_nat n) ++ nl) (seq 1 32).

Definition failing : World :=
  with_children (fun _ _ => Completed 0)
    (fun _ => PopenRuns many_lines (Exits 1 files_before)).

(** No ffmpeg on the search path. *)
Definition not_installed : World :=
  with_children
    (fun _ _ => NotLaunched (FileNotFoundError (py "No such file or directory")))
    (popen good).

(** [ffmpeg -version] runs but exits with status 1. *)
Definition odd_status : World :=
  with_children (fun _ _ => Completed 1) (popen good).

(** The first version query succeeds, the second one times out. *)
Definition second_times_out : World :=
  with_children
    (fun n _ => match n with
                | O => Completed 0
                | S _ => Interrupted (TimeoutExpired (py "timed out after 5 seconds"))
                end)
    (popen good).

(** The user presses Ctrl-C while ffmpeg runs. *)
Definition interrupted : World :=
  with_children (fun _ _ => Completed 0)
    (fun _ => PopenRuns ffmpeg_lines (ReadRaises KeyboardInterrupt files_before)).

(** Starting [ffmpeg -version] is refused. *)
Definition denied : World :=
  with_children
    (fun _ _ => NotLaunched (OtherException (py "PermissionError")
                               (py "Permission denied")))
    (popen good).

(** A Windows machine without ffmpeg, on which the version query hangs. *)
Definition windows_hanging : World :=
  mkWorld (py "win32")
          (fun _ default => default)
          (fun parts => concat parts)
          (fun _ => py ".")
          (fun p => Ret (py "C:\Users\user\" ++ p))
          (Ret (py "C:\Users\user"))
          (fun _ => Ret [clip])
          (fun _ => [])
          (fun _ _ => Interrupted (TimeoutExpired (py "timed out after 5 seconds")))
          (popen good)
          three_positionals
          files_before.

End Sample.

(** ** Notions the statements use *)

(** What the specification says happens to one character of the text. *)
Definition escape_char (c : char) : str :=
  if (c =? squote)%N then [squote; backslash; backslash; backslash; squote; squote]
  else if (c =? colon)%N then [backslash; colon]
  else [c].

(** A version query: [<tool> -version]. *)
Definition is_probe (argv : list str) : Prop :=
  exists tool, argv = [tool; py "-version"].

(** A step is tame when it leaves the files alone, only adds to the
    record of events, and starts no child but version queries. *)
Definition tame {A} (m : M A) : Prop :=
  forall s,
    fs (snd (m s)) = fs s /\
    exists evs, out (snd (m s)) = out s ++ evs /\ Forall is_probe (spawned evs).

(** A step is silent about children when it moreover starts none and
    leaves the call counter alone. *)
Definition childless {A} (m : M A) : Prop :=
  forall s,
    fs (snd (m s)) = fs s /\ calls (snd (m s)) = calls s /\
    exists evs, out (snd (m s)) = out s ++ evs /\ spawned evs = [].

(** The progress lines shown while ffmpeg runs. *)
Definition progress_events (lines : list str) : list event :=
  flat_map (fun line =>
              if contains (py "time=") line || contains (py "frame=") line
              then [Print (cr ++ firstn 80 (strip line))]
              else []) lines.

(** What is printed when ffmpeg fails with [returncode], after the output
    [lines]. *)
Definition failure_events (returncode : Z) (shown : list str) : list event :=
  [ Print (nl ++ nl ++ [10007%N] ++ py " FFmpeg failed with return code "
           ++ str_of_int returncode ++ nl);
    Print (nl ++ rule ++ nl);
    Print (py "FFMPEG ERROR OUTPUT:" ++ nl);
    Print (rule ++ nl) ] ++
  map (fun line => Print (rstrip line ++ nl)) shown ++
  [ Print (rule ++ nl) ].

(** The version query of the locator. *)
Definition path_probe : list str := [py "ffmpeg"; py "-version"].

(** The banner [main] prints first, and the tip after a usage error. *)
Definition banner_events : list event :=
  [ Print (rule ++ nl);
    Print (py "VIDEO PROCESSOR - Black Video with Text Overlay" ++ nl);
    Print (rule ++ nl) ].

Definition tip_events : list event :=
  [ Print ((nl ++ [9888%N] ++ py " Tip: Make sure to provide all required arguments:") ++ nl);
    Print ((py "  python video_processor.py input.mp4 output.mp4 "
            ++ dquote ++ py "Your text" ++ dquote) ++ nl) ].

(** The state in which [main] starts the pipeline. *)
Definition after_banner (w : World) : state :=
  mkState 0 (init_fs w) banner_events.

(** [f.endswith(('.mp4', '.MP4', '.avi', '.mov'))] *)
Definition is_media (f : str) : bool :=
  existsb (fun suffix => ends_with suffix f) media_suffixes.

(** What [validate_input_file] prints for a missing file, before the
    listing of the current directory. *)
Definition missing_input_events (cwd input_file : str) : list event :=
  [ Print ((nl ++ [10007%N] ++ py " ERROR: Input file not found: " ++ input_file) ++ nl);
    Print ((nl ++ py "Current directory: " ++ cwd) ++ nl);
    Print ((nl ++ py "Files in current directory:") ++ nl) ].

(** A line of ffmpeg that is echoed while it runs. *)
Definition has_marker (line : str) : bool :=
  contains (py "time=") line || contains (py "frame=") line.

(** What [process_video] prints first. *)
Definition started_events : list event :=
  [ Print ((nl ++ rule) ++ nl);
    Print (py "VIDEO PROCESSING STARTED" ++ nl);
    Print (rule ++ nl) ].

(** What [check_ffmpeg] prints when the locator found nothing. *)
Definition not_found_events : list event :=
  [ Print ((nl ++ [10007%N] ++ py " ERROR: FFmpeg not found!") ++ nl);
    Print ((nl ++ py "FFmpeg is required but not installed or not in your PATH.") ++ nl);
    Print ((nl ++ py "Installation instructions:") ++ nl);
    Print (py "  Windows: " ++ nl);
    Print (py "    1. Download from https://ffmpeg.org/download.html" ++ nl);
    Print (py "    2. Or use: winget install ffmpeg" ++ nl);
    Print (py "    3. Or use chocolatey: choco install ffmpeg" ++ nl);
    Print (py "  Ubuntu/Debian: sudo apt-get install ffmpeg" ++ nl);
    Print (py "  macOS: brew install ffmpeg" ++ nl) ].

(** The exceptions the locator swallows. *)
Definition is_not_found (e : exn) : bool :=
  match e with
  | FileNotFoundError _ | TimeoutExpired _ => true
  | _ => false
  end.

(** What the [except] clauses of [process_video] print for [e]. *)
Definition crash_events (e : exn) : list event :=
  match e with
  | TimeoutExpired _ =>
      [ Print ((nl ++ nl ++ [10007%N] ++ py " ERROR: FFmpeg process timed out") ++ nl) ]
  | _ =>
      [ Print ((nl ++ nl ++ [10007%N] ++ py " ERROR during processing: "
                ++ type_name e ++ py ": " ++ str_of_exn e) ++ nl);
        Print ((nl ++ py "Full error details:") ++ nl);
        PrintExc e ]
  end.

(** What [process_video] prints after a good run, before it asks for the
    absolute path of the output, and in all. *)
Definition completed_events (output_file : str) (output_size : Z)
    : list event :=
  [ Print ((nl ++ nl ++ rule) ++ nl);
    Print (([10003%N] ++ py " VIDEO PROCESSING COMPLETE!") ++ nl);
    Print (rule ++ nl);
    Print ((py "Output file: " ++ output_file) ++ nl);
    Print ((py "File size: " ++ format_commas output_size ++ py " bytes") ++ nl) ].

Definition success_events (output_file : str) (output_size : Z)
    (location : str) : list event :=
  completed_events output_file output_size ++
  [ Print ((py "Location: " ++ location) ++ nl) ].

(** What [process_video] prints between the validations and the start
    of ffmpeg. *)
Definition info_events (input_file output_file text : str) (font_size : Z)
    (font_color : str) : list event :=
  [ Print ((nl ++ [128249%N] ++ py " Input: " ++ input_file) ++ nl);
    Print (([128190%N] ++ py " Output: " ++ output_file) ++ nl);
    Print (([128221%N] ++ py " Text: '" ++ text ++ py "'") ++ nl);
    Print (([127912%N] ++ py " Font: " ++ str_of_int font_size ++ py "pt "
            ++ font_color) ++ nl);
    Print ((nl ++ py "Processing video (this may take a moment)...") ++ nl) ].

(** An event other than a printed traceback. *)
Definition no_traceback (ev : event) : Prop :=
  match ev with
  | PrintExc _ => False
  | _ => True
  end.

(** A step that only adds events, none of them a traceback. *)
Definition traceless {A} (m : M A) : Prop :=
  forall s,
    exists evs, out (snd (m s)) = out s ++ evs /\ Forall no_traceback evs.

(** What [main] prints last after a keyboard interrupt. *)
Definition interrupted_event : event :=
  Print ((nl ++ nl ++ [9888%N] ++ py " Processing interrupted by user") ++ nl).

(** What [process_video] prints when ffmpeg exited with 0 but left no
    output file, or an empty one. *)
Definition not_created_events : list event :=
  [ Print ((nl ++ nl ++ [10007%N] ++ py " ERROR: Output file was not created") ++ nl) ].

Definition empty_output_events : list event :=
  [ Print ((nl ++ nl ++ [10007%N] ++ py " ERROR: Output file is empty") ++ nl) ].

(** The files as the child has left them. *)
Definition files_left (fin : child_end) : FS :=
  match fin with
  | ReadRaises _ after | Exits _ after => after
  end.

(** What the runner answers and prints once the output of ffmpeg has
    ended: the part of [process_video] after its [for] loop, with the
    [except] clauses. *)
Definition verdict (w : World) (output_file : str) (all_output : list str)
    (fin : child_end) : res bool * list event :=
  match fin with
  | ReadRaises KeyboardInterrupt _ => (Raise KeyboardInterrupt, [])
  | ReadRaises e _ => (Ret false, crash_events e)
  | Exits returncode after =>
      if negb (returncode =? 0)%Z then
        (Ret false, failure_events returncode (error_lines all_output))
      else if os_path_exists after output_file then
        match stat_size after output_file with
        | Raise e => (Ret false, crash_events e)
        | Ret output_size =>
            if (output_size =? 0)%Z then (Ret false, empty_output_events)
            else
              match abspath w output_file with
              | Ret location =>
                  (Ret true, success_events output_file output_size location)
              | Raise KeyboardInterrupt =>
                  (Raise KeyboardInterrupt,
                   completed_events output_file output_size)
              | Raise e =>
                  (Ret false,
                   completed_events output_file output_size ++ crash_events e)
              end
        end
      else (Ret false, not_created_events)
  end.

(** More sample worlds. *)
Module Scenario.

(** No [clip.mp4], and the current directory cannot be listed. *)
Definition files_without_clip : FS :=
  mkFS (fun p => str_eqb p (py ".")) (fun _ => false) (fun _ => 0%Z)
       (fun p => str_eqb p (py ".")) (fun _ _ => None).

Definition unlistable : World :=
  mkWorld (platform Sample.good) (environ_get Sample.good)
          (path_join Sample.good) (path_parent Sample.good)
          (abspath Sample.good) (getcwd Sample.good)
          (fun _ => Raise (OtherException (py "PermissionError")
                             (py "Permission denied")))
          (glob Sample.good) (subprocess_run Sample.good)
          (popen Sample.good) (parse_args Sample.good) files_without_clip.

(** No [clip.mp4]; the directory holds other files. *)
Definition missing_clip : World :=
  mkWorld (platform Sample.good) (environ_get Sample.good)
          (path_join Sample.good) (path_parent Sample.good)
          (abspath Sample.good) (getcwd Sample.good)
          (fun _ => Ret [py "a.mp4"; py "notes.txt"; py "b.MOV"; py "c.avi"])
          (glob Sample.good) (subprocess_run Sample.good)
          (popen Sample.good) (parse_args Sample.good) files_without_clip.

(** A Windows machine: the query on the bare name is not found, WinGet
    has two installations and [C:\ffmpeg] exists as well. *)
Definition windows_files : FS :=
  mkFS (fun p => str_eqb p (py "C:\ffmpeg\bin\ffmpeg.exe")
                 || fs_exists Sample.files_before p)
       (fs_is_file Sample.files_before) (fs_size Sample.files_before)
       (fs_writable Sample.files_before) (fun _ _ => None).

Definition windows (matches : list str) : World :=
  mkWorld (py "win32")
          (fun _ default => default)
          (fun parts => concat parts)
          (fun _ => py ".")
          (fun p => Ret p)
          (Ret (py "C:\work"))
          (fun _ => Ret [])
          (fun _ => matches)
          (fun n _ =>
             match n with
             | O => NotLaunched (FileNotFoundError (py "not found"))
             | S _ => Completed 0
             end)
          (popen Sample.good)
          Sample.three_positionals
          windows_files.

(** The same files and processes on Linux. *)
Definition linux_with_windows_files (matches : list str) : World :=
  mkWorld (py "linux")
          (environ_get (windows matches)) (path_join (windows matches))
          (path_parent (windows matches)) (abspath (windows matches))
          (getcwd (windows matches)) (listdir (windows matches))
          (glob (windows matches)) (subprocess_run (windows matches))
          (popen (windows matches)) (parse_args (windows matches))
          (init_fs (windows matches)).

(** ffmpeg cannot be started although the version queries ran. *)
Definition launch_fails : World :=
  Sample.with_children (fun _ _ => Completed 0)
    (fun _ => PopenRaises (OtherException (py "OSError") (py "Exec format error"))).

(** No ffmpeg anywhere, and a directory of the search path may not be
    searched: the version query cannot be started, with a
    [PermissionError]. *)
Definition unsearchable_path : World :=
  Sample.with_children
    (fun _ _ => NotLaunched (OtherException (py "PermissionError")
                               (py "[Errno 13] Permission denied: 'ffmpeg'")))
    (popen Sample.good).

(** A file named [ffmpeg] on the search path is no program: the version
    query cannot be started. *)
Definition launch_refused : World :=
  Sample.with_children
    (fun _ _ => NotLaunched (OtherException (py "OSError")
                               (py "[Errno 8] Exec format error")))
    (popen Sample.good).

(** The output directory is missing. *)
Definition files_no_parent : FS :=
  mkFS (fun p => str_eqb p Sample.clip) (fs_is_file Sample.files_before)
       (fs_size Sample.files_before) (fun _ => false) (fun _ _ => None).

Definition no_parent : World := Sample.with_files files_no_parent.

(** The destination lies in a directory that does not exist, below a
    directory the process may not search. *)
Definition vault_output : str := py "vault/new/out.mp4".

Definition vault_files : FS :=
  mkFS (fun p => str_eqb p Sample.clip || str_eqb p (py "vault"))
       (fun p => str_eqb p Sample.clip)
       (fs_size Sample.files_before)
       (fun _ => false)
       (fun _ p => if starts_with (py "vault/") p
                 then Some (py "PermissionError",
                            py "[Errno 13] Permission denied")
                 else None).

Definition vault : World :=
  mkWorld (platform Sample.good) (environ_get Sample.good)
          (path_join Sample.good) (fun _ => py "vault/new")
          (abspath Sample.good) (getcwd Sample.good) (listdir Sample.good)
          (glob Sample.good) (subprocess_run Sample.good)
          (popen Sample.good) (parse_args Sample.good) vault_files.

End Scenario.

(** ** The escaping of the text *)

Lemma replace_one_char (a : char) (new s : str) :
  replace [a] new s = flat_map (fun c => if (a =? c)%N then new else [c]) s.
Proof.
  unfold replace.
  induction s as [|c s IH]; [reflexivity|].
  cbn [replace_from starts_with flat_map List.length Nat.sub].
  rewrite andb_true_r.
  destruct (a =? c)%N; rewrite IH; reflexivity.
Qed.

Lemma flat_map_compose {A B C} (f : A -> list B) (g : B -> list C) (l : list A) :
  flat_map g (flat_map f l) = flat_map (fun a => flat_map g (f a)) l.
Proof.
  induction l as [|a l IH]; [reflexivity|].
  cbn [flat_map]. rewrite flat_map_app, IH. reflexivity.
Qed.

Lemma escape_text_flat_map (text : str) :
  escape_text text = flat_map escape_char text.
Proof.
  unfold escape_text.
  change (py ":") with [colon]. change (py "'") with [squote].
  rewrite !replace_one_char, flat_map_compose.
  apply flat_map_ext. intro c. unfold escape_char.
  rewrite (N.eqb_sym c squote), (N.eqb_sym c colon).
  destruct (squote =? c)%N eqn:Hq; [reflexivity|].
  cbn [flat_map]. rewrite app_nil_r.
  destruct (colon =? c)%N; reflexivity.
Qed.

(** C2: the escaped text is the text with every single quote replaced by
    quote, three backslashes, quote, quote; every colon replaced by
    backslash, colon; and every other character kept as it is. *)
Theorem escape_text_spec (text : str) :
  escape_text text = flat_map escape_char text /\
  escape_char squote = py "'\\\''" /\
  escape_char colon = py "\:" /\
  (forall c, c <> squote -> c <> colon -> escape_char c = [c]).
Proof.
  split; [apply escape_text_flat_map|].
  split; [reflexivity|]. split; [reflexivity|].
  intros c Hq Hc. unfold escape_char.
  apply N.eqb_neq in Hq. apply N.eqb_neq in Hc.
  rewrite Hq, Hc. reflexivity.
Qed.

Example escape_hello :
  escape_text (py "Hello: World's Test") = py "Hello\: World'\\\''s Test".
Proof. reflexivity. Qed.

(** ** The command line given to ffmpeg *)

(** C1: the argument vector is the tool path, [-i] and the input, [-vf]
    and the filter (a black [drawbox] fill, then a [drawtext] of the
    escaped text with the given size and colour, centred in both
    directions), [-c:a copy], [-y] and the output, in this order. *)
Theorem build_command_spec (ffmpeg_path input_file output_file text : str)
    (font_size : Z) (font_color : str) :
  build_command ffmpeg_path input_file output_file text font_size font_color =
  [ ffmpeg_path; py "-i"; input_file;
    py "-vf";
    py "drawbox=color=black@1.0:t=fill,drawtext=text='"
      ++ flat_map escape_char text
      ++ py "':fontsize=" ++ str_of_int font_size
      ++ py ":fontcolor=" ++ font_color
      ++ py ":x=(w-text_w)/2:y=(h-text_h)/2";
    py "-c:a"; py "copy"; py "-y"; output_file ].
Proof.
  unfold build_command, filter_expr.
  rewrite escape_text_flat_map.
  rewrite <- !app_assoc. reflexivity.
Qed.

Example command_hello :
  build_command (py "ffmpeg") Sample.clip Sample.outfile
    (py "Hello: World's Test") 60 (py "red") =
  [ py "ffmpeg"; py "-i"; py "clip.mp4"; py "-vf";
    py "drawbox=color=black@1.0:t=fill,drawtext=text='Hello\: World'\\\''s Test':fontsize=60:fontcolor=red:x=(w-text_w)/2:y=(h-text_h)/2";
    py "-c:a"; py "copy"; py "-y"; py "out.mp4" ].
Proof. reflexivity. Qed.

(** ** How the steps of the script change the state *)

Lemma spawned_app (a b : list event) :
  spawned (a ++ b) = spawned a ++ spawned b.
Proof. apply flat_map_app. Qed.

Lemma childless_tame {A} (m : M A) : childless m -> tame m.
Proof.
  intros H s. destruct (H s) as (Hf & _ & evs & Ho & Hs).
  split; [exact Hf|]. exists evs. split; [exact Ho|]. rewrite Hs. constructor.
Qed.

Lemma childless_ret {A} (a : A) : childless (ret a).
Proof.
  intro s. cbn. repeat split. exists []. rewrite app_nil_r. split; reflexivity.
Qed.

Lemma childless_raise {A} (e : exn) : childless (@raise A e).
Proof.
  intro s. cbn. repeat split. exists []. rewrite app_nil_r. split; reflexivity.
Qed.

Lemma childless_print (x : str) : childless (print x).
Proof.
  intro s. cbn. repeat split. exists [Print (x ++ nl)]. split; reflexivity.
Qed.

Lemma childless_print_noend (x : str) : childless (print_noend x).
Proof.
  intro s. cbn. repeat split. exists [Print x]. split; reflexivity.
Qed.

Lemma childless_print_exc (e : exn) : childless (emit (PrintExc e)).
Proof.
  intro s. cbn. repeat split. exists [PrintExc e]. split; reflexivity.
Qed.

Lemma childless_call {A} (r : res A) : childless (call r).
Proof.
  intro s. cbn. repeat split. exists []. rewrite app_nil_r. split; reflexivity.
Qed.

Lemma childless_get_fs : childless get_fs.
Proof.
  intro s. cbn. repeat split. exists []. rewrite app_nil_r. split; reflexivity.
Qed.

Lemma childless_bind {A B} (m : M A) (k : A -> M B) :
  childless m -> (forall a, childless (k a)) -> childless (bind m k).
Proof.
  intros Hm Hk s. unfold bind.
  destruct (Hm s) as (Hf & Hc & evs & Ho & Hs).
  destruct (m s) as [[a|e] s1]; cbn [snd] in *.
  - destruct (Hk a s1) as (Hf' & Hc' & evs' & Ho' & Hs').
    repeat split; [congruence | congruence |].
    exists (evs ++ evs'). rewrite Ho', Ho, app_assoc, spawned_app, Hs, Hs'.
    split; reflexivity.
  - repeat split; [assumption | assumption |]. exists evs. split; assumption.
Qed.

Lemma childless_try {A} (m : M A) (h : exn -> option (M A)) :
  childless m -> (forall e k, h e = Some k -> childless k) ->
  childless (try_except m h).
Proof.
  intros Hm Hh s. unfold try_except.
  destruct (Hm s) as (Hf & Hc & evs & Ho & Hs).
  destruct (m s) as [[a|e] s1]; cbn [snd] in *.
  - repeat split; [assumption | assumption |]. exists evs. split; assumption.
  - destruct (h e) as [k|] eqn:He.
    + destruct (Hh e k He s1) as (Hf' & Hc' & evs' & Ho' & Hs').
      repeat split; [congruence | congruence |].
      exists (evs ++ evs'). rewrite Ho', Ho, app_assoc, spawned_app, Hs, Hs'.
      split; reflexivity.
    + repeat split; [assumption | assumption |]. exists evs. split; assumption.
Qed.

Lemma childless_for_each {A} (xs : list A) (body : A -> M unit) :
  (forall x, childless (body x)) -> childless (for_each xs body).
Proof.
  intro Hb. induction xs as [|x xs IH]; cbn [for_each].
  - apply childless_ret.
  - apply childless_bind; [apply Hb | intros _; exact IH].
Qed.

Lemma childless_if {A} (b : bool) (m1 m2 : M A) :
  childless m1 -> childless m2 -> childless (if b then m1 else m2).
Proof. destruct b; auto. Qed.

Lemma tame_bind {A B} (m : M A) (k : A -> M B) :
  tame m -> (forall a, tame (k a)) -> tame (bind m k).
Proof.
  intros Hm Hk s. unfold bind.
  destruct (Hm s) as (Hf & evs & Ho & Hs).
  destruct (m s) as [[a|e] s1]; cbn [snd] in *.
  - destruct (Hk a s1) as (Hf' & evs' & Ho' & Hs').
    split; [congruence|].
    exists (evs ++ evs'). rewrite Ho', Ho, app_assoc, spawned_app.
    split; [reflexivity | apply Forall_app; split; assumption].
  - split; [assumption|]. exists evs. split; assumption.
Qed.

Lemma tame_try {A} (m : M A) (h : exn -> option (M A)) :
  tame m -> (forall e k, h e = Some k -> tame k) -> tame (try_except m h).
Proof.
  intros Hm Hh s. unfold try_except.
  destruct (Hm s) as (Hf & evs & Ho & Hs).
  destruct (m s) as [[a|e] s1]; cbn [snd] in *.
  - split; [assumption|]. exists evs. split; assumption.
  - destruct (h e) as [k|] eqn:He.
    + destruct (Hh e k He s1) as (Hf' & evs' & Ho' & Hs').
      split; [congruence|].
      exists (evs ++ evs'). rewrite Ho', Ho, app_assoc, spawned_app.
      split; [reflexivity | apply Forall_app; split; assumption].
    + split; [assumption|]. exists evs. split; assumption.
Qed.

Create HintDb script.
#[local] Hint Resolve childless_ret childless_raise childless_print
  childless_print_noend childless_print_exc childless_get_fs
  childless_call childless_tame : script.

Ltac childless_step :=
  first
    [ apply childless_bind; [|intro]
    | apply childless_if
    | apply childless_for_each; intro
    | solve [auto with script] ].

Section Effects.

Variable w : World.

Lemma run_probe_tame (tool : str) : tame (run_probe w [tool; py "-version"]).
Proof.
  intro s. unfold run_probe.
  destruct (subprocess_run w (calls s) [tool; py "-version"]);
    cbn [snd fs out]; (split; [reflexivity|]).
  - exists []. rewrite app_nil_r. split; [reflexivity | constructor].
  - eexists. split; [reflexivity|]. repeat constructor. exists tool. reflexivity.
  - eexists. split; [reflexivity|]. repeat constructor. exists tool. reflexivity.
Qed.

Lemma find_ffmpeg_tame : tame (find_ffmpeg w).
Proof.
  unfold find_ffmpeg.
  apply tame_bind.
  - apply tame_try.
    + apply tame_bind; [apply run_probe_tame | intro; auto with script].
    + intros e k H. destruct e; inversion H; auto with script.
  - intros [p|]; [auto with script|].
    destruct (str_eqb (platform w) (py "win32")); [|auto with script].
    destruct (glob w (winget_pattern w)); [|auto with script].
    apply childless_tame. repeat childless_step.
Qed.

Lemma check_ffmpeg_tame : tame (check_ffmpeg w).
Proof.
  unfold check_ffmpeg.
  apply tame_bind; [apply find_ffmpeg_tame|].
  intros [p|].
  - apply tame_try.
    + apply tame_bind; [apply run_probe_tame | intro].
      apply childless_tame. repeat childless_step.
    + intros e k H.
      destruct e; inversion H; apply childless_tame; repeat childless_step.
  - apply childless_tame. repeat childless_step.
Qed.

Lemma validate_input_file_childless (input_file : str) :
  childless (validate_input_file w input_file).
Proof.
  unfold validate_input_file.
  apply childless_bind; [auto with script | intro files].
  apply childless_bind; [apply childless_call | intro found].
  apply childless_if.
  - repeat childless_step. apply childless_try.
    + destruct (listdir w (py ".")); repeat childless_step.
    + intros e k H. destruct (is_Exception e); inversion H. auto with script.
  - apply childless_bind; [apply childless_call | intro regular].
    apply childless_if; [repeat childless_step|].
    apply childless_bind; [apply childless_call | intro st_size].
    apply childless_if; repeat childless_step.
Qed.

Lemma validate_output_path_childless (output_file : str) :
  childless (validate_output_path w output_file).
Proof.
  unfold validate_output_path.
  apply childless_bind; [auto with script | intro files]. cbv zeta.
  apply childless_bind; [apply childless_call | intro found].
  repeat apply childless_if; repeat childless_step.
Qed.

(** [validate_input_file] answers [True] only for an existing, regular,
    non-empty file whose lookups all answered. *)
Lemma validate_input_file_true (input_file : str) (s : state) :
  fst (validate_input_file w input_file s) = Ret true ->
  path_exists (fs s) input_file = Ret true /\
  path_is_file (fs s) input_file = Ret true /\
  stat_size (fs s) input_file = Ret (fs_size (fs s) input_file) /\
  fs_size (fs s) input_file <> 0%Z.
Proof.
  unfold validate_input_file, bind, get_fs, call,
    path_exists, path_is_file, stat_size.
  destruct (fs_error (fs s) Exists input_file); [discriminate|].
  destruct (fs_exists (fs s) input_file); cbn [negb].
  - destruct (fs_error (fs s) IsFile input_file); [discriminate|].
    destruct (fs_is_file (fs s) input_file); cbn [negb].
    + destruct (fs_error (fs s) Stat input_file); [discriminate|].
      destruct (fs_size (fs s) input_file =? 0)%Z eqn:Hz.
      * cbn. discriminate.
      * intros _. apply Z.eqb_neq in Hz. auto.
    + cbn. discriminate.
  - cbn [negb print emit]. destruct (getcwd w) as [cwd|e]; [|discriminate].
    cbn [print emit].
    match goal with
    | |- context [try_except ?m ?h ?s0] =>
        destruct (try_except m h s0) as [[[]|?] ?]
    end; discriminate.
Qed.

(** [validate_output_path] answers [True] only for an existing,
    writable parent directory, and after looking for the destination. *)
Lemma validate_output_path_true (output_file : str) (s : state) :
  fst (validate_output_path w output_file s) = Ret true ->
  path_exists (fs s) (path_parent w output_file) = Ret true /\
  fs_writable (fs s) (path_parent w output_file) = true /\
  exists existing, path_exists (fs s) output_file = Ret existing.
Proof.
  unfold validate_output_path, bind, get_fs, call. cbv zeta.
  destruct (path_exists (fs s) (path_parent w output_file)) as [[|]|e];
    cbn [negb]; try (cbn; discriminate).
  destruct (fs_writable (fs s) (path_parent w output_file));
    cbn [negb]; [|cbn; discriminate].
  destruct (path_exists (fs s) output_file) as [existing|e];
    [|discriminate].
  intros _. eauto.
Qed.

(** What the lookups say about the files when they answer. *)
Lemma path_exists_true (files : FS) (p : str) :
  path_exists files p = Ret true ->
  fs_error files Exists p = None /\ fs_exists files p = true.
Proof.
  unfold path_exists. destruct (fs_error files Exists p); [discriminate|].
  intro H. injection H as H. auto.
Qed.

Lemma path_is_file_true (files : FS) (p : str) :
  path_is_file files p = Ret true -> fs_is_file files p = true.
Proof.
  unfold path_is_file. destruct (fs_error files IsFile p); [discriminate|].
  intro H. injection H as H. auto.
Qed.

Lemma os_path_exists_true (files : FS) (p : str) :
  os_path_exists files p = true -> fs_exists files p = true.
Proof.
  unfold os_path_exists.
  destruct (fs_error files Exists p); [discriminate | auto].
Qed.

Lemma os_path_exists_missing (files : FS) (p : str) :
  fs_exists files p = false -> os_path_exists files p = false.
Proof.
  unfold os_path_exists. destruct (fs_error files Exists p); auto.
Qed.

End Effects.

(** ** The process runner *)

Lemma spawned_progress (lines : list str) : spawned (progress_events lines) = [].
Proof.
  induction lines as [|l lines IH]; [reflexivity|].
  cbn [progress_events flat_map]. rewrite spawned_app.
  fold (progress_events lines). rewrite IH.
  destruct (contains (py "time=") l || contains (py "frame=") l); reflexivity.
Qed.

Lemma spawned_prints {A} (f : A -> str) (xs : list A) :
  spawned (map (fun x => Print (f x)) xs) = [].
Proof. induction xs as [|x xs IH]; [reflexivity | exact IH]. Qed.

Lemma for_each_progress (lines : list str) (s : state) :
  for_each lines (fun line =>
    if contains (py "time=") line || contains (py "frame=") line
    then print_noend (cr ++ firstn 80 (strip line))
    else ret tt) s =
  (Ret tt, mkState (calls s) (fs s) (out s ++ progress_events lines)).
Proof.
  revert s. induction lines as [|l lines IH]; intro s.
  - cbn. rewrite app_nil_r. destruct s; reflexivity.
  - cbn [for_each progress_events flat_map]. unfold bind.
    destruct (contains (py "time=") l || contains (py "frame=") l).
    + cbn [print_noend emit]. rewrite IH. cbn [calls fs out].
      rewrite <- app_assoc. reflexivity.
    + cbn [ret]. rewrite IH. reflexivity.
Qed.

Lemma for_each_print {A} (f : A -> str) (xs : list A) (s : state) :
  for_each xs (fun x => print (f x)) s =
  (Ret tt, mkState (calls s) (fs s)
             (out s ++ map (fun x => Print (f x ++ nl)) xs)).
Proof.
  revert s. induction xs as [|x xs IH]; intro s.
  - cbn. rewrite app_nil_r. destruct s; reflexivity.
  - cbn [for_each map]. unfold bind. cbn [print emit]. rewrite IH.
    cbn [calls fs out]. rewrite <- app_assoc. reflexivity.
Qed.

(** The slice taken for the report is the last [min 30 n] of [n] lines. *)
Lemma error_lines_last (all_output : list str) :
  error_lines all_output =
  last_n (Nat.min 30 (length all_output)) all_output.
Proof.
  unfold error_lines, last_n.
  destruct (30 <? length all_output)%nat eqn:H.
  - apply Nat.ltb_lt in H. rewrite Nat.min_l by lia. reflexivity.
  - apply Nat.ltb_ge in H. rewrite Nat.min_r by lia.
    rewrite Nat.sub_diag. reflexivity.
Qed.

Lemma last_n_length {A} (n : nat) (xs : list A) :
  length (last_n n xs) = Nat.min n (length xs).
Proof. unfold last_n. rewrite length_skipn. lia. Qed.

Lemma last_n_suffix {A} (n : nat) (xs : list A) :
  exists before, xs = before ++ last_n n xs.
Proof.
  exists (firstn (length xs - n) xs). unfold last_n.
  symmetry. apply firstn_skipn.
Qed.

Lemma bind_step {A B} (m : M A) (k : A -> M B) (s : state) :
  bind m k s =
  match m s with
  | (Ret a, s') => k a s'
  | (Raise e, s') => (Raise e, s')
  end.
Proof. reflexivity. Qed.

Lemma bind_print {B} (x : str) (k : unit -> M B) (s : state) :
  bind (print x) k s =
  k tt (mkState (calls s) (fs s) (out s ++ [Print (x ++ nl)])).
Proof. reflexivity. Qed.

Section Runner.

Variable w : World.

Lemma run_command_failure (command : list str) (output_file : str)
    (lines : list str) (returncode : Z) (after : FS) (s : state) :
  popen w command = PopenRuns lines (Exits returncode after) ->
  returncode <> 0%Z ->
  run_command w command output_file s =
  (Ret false,
   mkState (calls s) after
     (out s ++ [Spawn command] ++ progress_events lines
            ++ failure_events returncode (error_lines lines))).
Proof.
  intros Hp Hrc. unfold run_command, try_except. rewrite Hp.
  unfold bind at 1. cbn [emit].
  unfold bind at 1. rewrite for_each_progress. cbn [calls fs out].
  unfold bind at 1. cbn [set_fs calls fs out].
  apply Z.eqb_neq in Hrc. rewrite Hrc. cbn [negb].
  unfold report_failure.
  rewrite bind_step, !bind_print, bind_step, for_each_print.
  cbn [print emit ret calls fs out].
  unfold failure_events.
  repeat rewrite <- app_assoc. reflexivity.
Qed.

(** The runner's whole run when ffmpeg exits with 0. *)
Lemma run_command_exit_zero (command : list str) (output_file : str)
    (lines : list str) (after : FS) (s : state) :
  popen w command = PopenRuns lines (Exits 0 after) ->
  run_command w command output_file s =
  (fst (verdict w output_file lines (Exits 0 after)),
   mkState (calls s) after
     (out s ++ [Spawn command] ++ progress_events lines
            ++ snd (verdict w output_file lines (Exits 0 after)))).
Proof.
  intro Hp. unfold run_command, try_except. rewrite Hp.
  rewrite bind_step. cbn [emit].
  rewrite bind_step, for_each_progress. cbn [calls fs out].
  rewrite bind_step. cbn [set_fs calls fs out negb Z.eqb].
  rewrite bind_step. cbn [get_fs fs verdict Z.eqb negb].
  unfold os_path_exists, stat_size, call.
  destruct (fs_error after Exists output_file).
  - cbn [negb]. rewrite bind_print. cbn [ret calls fs out fst snd].
    unfold not_created_events. repeat rewrite <- app_assoc. reflexivity.
  - destruct (fs_exists after output_file); cbn [negb].
    + rewrite bind_step.
      destruct (fs_error after Stat output_file) as [d|].
      * cbn [os_error crash_events]. rewrite !bind_print.
        cbn [bind emit ret calls fs out fst snd].
        repeat rewrite <- app_assoc. reflexivity.
      * destruct (fs_size after output_file =? 0)%Z.
        -- rewrite bind_print. cbn [ret calls fs out fst snd].
           unfold empty_output_events. repeat rewrite <- app_assoc.
           reflexivity.
        -- rewrite !bind_print, bind_step. cbn [calls fs out].
           destruct (abspath w output_file) as [location|e].
           ++ rewrite bind_print. cbn [ret calls fs out fst snd].
              unfold success_events, completed_events.
              repeat rewrite <- app_assoc. reflexivity.
           ++ destruct e; rewrite ?bind_print;
                cbn [bind emit ret calls fs out fst snd crash_events];
                unfold completed_events; repeat rewrite <- app_assoc;
                reflexivity.
    + rewrite bind_print. cbn [ret calls fs out fst snd].
      unfold not_created_events. repeat rewrite <- app_assoc. reflexivity.
Qed.

Lemma run_command_silent (command : list str) (output_file : str)
    (lines : list str) (after : FS) (s : state) :
  popen w command = PopenRuns lines (Exits 0 after) ->
  fs_exists after output_file = false \/ fs_size after output_file = 0%Z ->
  fst (run_command w command output_file s) = Ret false.
Proof.
  intros Hp Hbad. rewrite (run_command_exit_zero _ _ _ _ s Hp).
  cbn [fst verdict Z.eqb negb].
  destruct (os_path_exists after output_file) eqn:He; [|reflexivity].
  apply os_path_exists_true in He. unfold stat_size. rewrite He.
  destruct (fs_error after Stat output_file); [reflexivity|].
  destruct Hbad as [Hbad|Hbad]; [congruence|].
  rewrite Hbad. reflexivity.
Qed.

End Runner.

Ltac spawned_done :=
  cbn [snd out print emit ret raise bind calls fs];
  repeat rewrite spawned_app;
  rewrite ?spawned_progress, ?spawned_prints;
  cbn [spawned flat_map app];
  rewrite ?app_nil_r; reflexivity.

Section Pipeline.

Variable w : World.

(** The runner starts one child, the given command, unless [Popen]
    itself fails. *)
Lemma run_command_spawned (command : list str) (output_file : str) (s : state) :
  spawned (out (snd (run_command w command output_file s))) =
  spawned (out s) ++
  match popen w command with
  | PopenRuns _ _ => [command]
  | PopenRaises _ => []
  end.
Proof.
  destruct (popen w command) as [e|lines [e after|returncode after]] eqn:Hp.
  - unfold run_command, try_except. rewrite Hp.
    destruct e; spawned_done.
  - unfold run_command, try_except. rewrite Hp.
    rewrite bind_step. cbn [emit].
    rewrite bind_step, for_each_progress. cbn [calls fs out].
    rewrite bind_step. cbn [set_fs calls fs out].
    destruct e; spawned_done.
  - destruct (Z.eq_dec returncode 0) as [->|Hrc].
    + rewrite (run_command_exit_zero w _ output_file _ _ s Hp).
      cbn [verdict Z.eqb negb].
      destruct (os_path_exists after output_file);
        [destruct (stat_size after output_file) as [n|e];
         [destruct (n =? 0)%Z;
          [|destruct (abspath w output_file) as [location|[]]]
         | destruct e]|];
        unfold empty_output_events, success_events, completed_events,
          not_created_events, crash_events;
        spawned_done.
    + rewrite (run_command_failure w _ _ _ _ _ s Hp Hrc).
      unfold failure_events. spawned_done.
Qed.

(** A run of [process_video] either stops before ffmpeg is started, with
    a result other than [True] and no child but version queries, or it
    passes the checker and both validations and is the runner on the
    command built from the checked tool path. *)
Lemma process_video_cases (input_file output_file text : str)
    (font_size : Z) (font_color : str) (s : state) :
  let run := process_video w input_file output_file text font_size font_color s in
  (fst run <> Ret true /\
   exists evs, out (snd run) = out s ++ evs /\ Forall is_probe (spawned evs))
  \/
  (exists ffmpeg_path s1 evs,
     run = run_command w
             (build_command ffmpeg_path input_file output_file text
                font_size font_color) output_file s1 /\
     fs s1 = fs s /\
     out s1 = out s ++ evs /\ Forall is_probe (spawned evs) /\
     path_exists (fs s) input_file = Ret true /\
     path_is_file (fs s) input_file = Ret true /\
     stat_size (fs s) input_file = Ret (fs_size (fs s) input_file) /\
     fs_size (fs s) input_file <> 0%Z /\
     path_exists (fs s) (path_parent w output_file) = Ret true /\
     fs_writable (fs s) (path_parent w output_file) = true).
Proof.
  cbv zeta. unfold process_video.
  rewrite !bind_print, bind_step. cbn [calls fs out].
  repeat rewrite <- app_assoc. cbn [app].
  match goal with |- context [check_ffmpeg w ?s0] => set (s3 := s0) end.
  assert (Hf3 : fs s3 = fs s) by reflexivity.
  assert (Ho3 : exists evs, out s3 = out s ++ evs /\ spawned evs = []).
  { eexists. split; [reflexivity | reflexivity]. }
  clearbody s3. destruct Ho3 as (ev3 & Ho3 & Hs3).
  destruct (check_ffmpeg_tame w s3) as (Hfc & evc & Hoc & Hsc).
  destruct (check_ffmpeg w s3) as [[[[|ch tool]|]|e] s4] eqn:Hc;
    cbn [snd fst ret] in *.
  1, 3, 4: left; (split; [discriminate|]);
    exists (ev3 ++ evc); rewrite Hoc, Ho3, app_assoc, spawned_app, Hs3;
    (split; [reflexivity | exact Hsc]).
  rewrite bind_step.
  destruct (validate_input_file_childless w input_file s4)
    as (Hfi & _ & evi & Hoi & Hsi).
  pose proof (validate_input_file_true w input_file s4) as Hti.
  destruct (validate_input_file w input_file s4) as [[[|]|e] s5];
    cbn [snd fst negb ret] in *.
  2, 3: left; (split; [discriminate|]);
    exists (ev3 ++ evc ++ evi);
    rewrite Hoi, Hoc, Ho3, !app_assoc, !spawned_app, Hs3, Hsi, app_nil_r;
    (split; [reflexivity | exact Hsc]).
  specialize (Hti eq_refl). destruct Hti as (Hi1 & Hi2 & Hi3 & Hi4).
  rewrite bind_step.
  destruct (validate_output_path_childless w output_file s5)
    as (Hfo & _ & evo & Hoo & Hso).
  pose proof (validate_output_path_true w output_file s5) as Hto.
  destruct (validate_output_path w output_file s5) as [[[|]|e] s6];
    cbn [snd fst negb ret] in *.
  2, 3: left; (split; [discriminate|]);
    exists (ev3 ++ evc ++ evi ++ evo);
    rewrite Hoo, Hoi, Hoc, Ho3, !app_assoc, !spawned_app, Hs3, Hsi, Hso,
      !app_nil_r;
    (split; [reflexivity | exact Hsc]).
  right. rewrite !bind_print.
  destruct (Hto eq_refl) as (Hp1 & Hp2 & _).
  eexists (ch :: tool), _, _. split; [reflexivity|].
  cbn [fs out].
  split; [congruence|].
  split.
  { rewrite Hoo, Hoi, Hoc, Ho3. repeat rewrite <- app_assoc. reflexivity. }
  split.
  { rewrite !spawned_app, Hs3, Hsi, Hso. cbn. rewrite app_nil_r. exact Hsc. }
  rewrite <- Hf3, <- Hfc. rewrite Hfi in Hp1, Hp2.
  repeat split; assumption.
Qed.

End Pipeline.

(** ** The tool locator and the checker *)

Lemma str_eqb_eq (a b : str) : str_eqb a b = true <-> a = b.
Proof.
  revert b. induction a as [|x a IH]; intros [|y b]; cbn [str_eqb];
    try (split; [discriminate | discriminate]); [split; reflexivity|].
  rewrite andb_true_iff, N.eqb_eq, IH.
  split; [intros [-> ->]; reflexivity | intro H; inversion H; auto].
Qed.

Section Locator.

Variable w : World.

(** The locator calls [subprocess.run] once, whatever happens. *)
Lemma find_ffmpeg_calls (s : state) :
  calls (snd (find_ffmpeg w s)) = S (calls s).
Proof.
  unfold find_ffmpeg, bind, try_except, run_probe.
  destruct (subprocess_run w (calls s) [py "ffmpeg"; py "-version"])
    as [[]|rc|[]]; cbn [ret snd calls]; try reflexivity;
    destruct (str_eqb (platform w) (py "win32")); try reflexivity;
    destruct (glob w (winget_pattern w)); reflexivity.
Qed.

(** What the locator answers depends on the call counter and the files
    only, not on what was printed before. *)
Lemma find_ffmpeg_result (s s' : state) :
  calls s = calls s' -> fs s = fs s' ->
  fst (find_ffmpeg w s) = fst (find_ffmpeg w s').
Proof.
  intros Hc Hf.
  unfold find_ffmpeg, bind, try_except, run_probe. rewrite Hc.
  destruct (subprocess_run w (calls s') [py "ffmpeg"; py "-version"])
    as [[]|rc|[]]; cbn [ret fst get_fs fs]; try reflexivity;
    destruct (str_eqb (platform w) (py "win32")); try reflexivity;
    destruct (glob w (winget_pattern w)); cbn [fst fs]; rewrite ?Hf;
    reflexivity.
Qed.

Lemma find_ffmpeg_none (s : state) (e : exn) :
  raised (subprocess_run w (calls s) path_probe) = Some e ->
  (exists msg, e = FileNotFoundError msg \/ e = TimeoutExpired msg) ->
  (platform w = py "win32" ->
   glob w (winget_pattern w) = [] /\
   Forall (fun location => os_path_exists (fs s) location = false)
     program_files_locations) ->
  fst (find_ffmpeg w s) = Ret None.
Proof.
  intros Hr (msg & He) Hfb.
  unfold find_ffmpeg, bind, try_except, run_probe.
  fold path_probe.
  assert (Hrest :
    fst ((if str_eqb (platform w) (py "win32")
          then match glob w (winget_pattern w) with
               | [] => files <- get_fs ;;
                       ret (find (os_path_exists files) program_files_locations)
               | m :: _ => ret (Some m)
               end
          else ret None)
           (mkState (S (calls s)) (fs s) (out s))) = Ret None /\
    forall argv,
    fst ((if str_eqb (platform w) (py "win32")
          then match glob w (winget_pattern w) with
               | [] => files <- get_fs ;;
                       ret (find (os_path_exists files) program_files_locations)
               | m :: _ => ret (Some m)
               end
          else ret None)
           (mkState (S (calls s)) (fs s) (out s ++ [Spawn argv]))) = Ret None).
  { destruct (str_eqb (platform w) (py "win32")) eqn:Hp;
      [|split; reflexivity].
    apply str_eqb_eq in Hp. destruct (Hfb Hp) as [Hg Hl].
    rewrite Hg. cbn [bind get_fs ret fst fs].
    inversion Hl as [|? ? H1 Hl']; subst.
    inversion Hl' as [|? ? H2 _]; subst.
    cbn [find program_files_locations].
    rewrite H1, H2.
    split; reflexivity. }
  destruct Hrest as [Hrest1 Hrest2].
  destruct (subprocess_run w (calls s) path_probe) as [e'|rc|e'];
    cbn [raised] in Hr; [|discriminate|];
    injection Hr as ->; destruct He as [-> | ->];
    first [exact Hrest1 | apply Hrest2].
Qed.

Lemma find_ffmpeg_completed (s : state) (returncode : Z) :
  subprocess_run w (calls s) path_probe = Completed returncode ->
  fst (find_ffmpeg w s) = Ret (Some (py "ffmpeg")).
Proof.
  intro H. unfold find_ffmpeg, bind, try_except, run_probe.
  fold path_probe. rewrite H. reflexivity.
Qed.

(** When the locator found [ffmpeg_path] and the second version query
    raises an [Exception], the checker answers [None]. *)
Lemma check_ffmpeg_second_raises (s : state) (ffmpeg_path : str) (e : exn) :
  fst (find_ffmpeg w s) = Ret (Some ffmpeg_path) ->
  raised (subprocess_run w (S (calls s)) [ffmpeg_path; py "-version"]) = Some e ->
  is_Exception e = true ->
  fst (check_ffmpeg w s) = Ret None.
Proof.
  intros Hfind Hr He.
  unfold check_ffmpeg. rewrite bind_step.
  pose proof (find_ffmpeg_calls s) as Hc.
  destruct (find_ffmpeg w s) as [r s1]. cbn [fst snd] in *. subst r.
  unfold try_except, bind, run_probe. rewrite Hc.
  destruct (subprocess_run w (S (calls s)) [ffmpeg_path; py "-version"])
    as [e'|rc|e']; cbn [raised] in Hr; [|discriminate|];
    injection Hr as ->; destruct e; try discriminate He; reflexivity.
Qed.

(** The checker, after a successful locator, has called [subprocess.run]
    twice. *)
Lemma check_ffmpeg_calls (s : state) (ffmpeg_path : str) :
  fst (find_ffmpeg w s) = Ret (Some ffmpeg_path) ->
  calls (snd (check_ffmpeg w s)) = S (S (calls s)).
Proof.
  intro Hfind.
  unfold check_ffmpeg. rewrite bind_step.
  pose proof (find_ffmpeg_calls s) as Hc.
  destruct (find_ffmpeg w s) as [r s1]. cbn [fst snd] in *. subst r.
  unfold try_except, bind, run_probe. rewrite Hc.
  destruct (subprocess_run w (S (calls s)) [ffmpeg_path; py "-version"])
    as [e'|rc|e']; try destruct e'; reflexivity.
Qed.

(** The checker's answer, like the locator's, does not depend on what was
    printed before. *)
Lemma check_ffmpeg_result (s s' : state) :
  calls s = calls s' -> fs s = fs s' ->
  fst (check_ffmpeg w s) = fst (check_ffmpeg w s').
Proof.
  intros Hc Hf.
  unfold check_ffmpeg. rewrite !bind_step.
  pose proof (find_ffmpeg_result s s' Hc Hf) as Hr.
  pose proof (find_ffmpeg_calls s) as Hc1.
  pose proof (find_ffmpeg_calls s') as Hc2.
  destruct (find_ffmpeg w s) as [r1 s1], (find_ffmpeg w s') as [r2 s2].
  cbn [fst snd] in *. subst r2.
  destruct r1 as [[p|]|e]; [| reflexivity | reflexivity].
  unfold try_except, bind, run_probe. rewrite Hc1, Hc2, Hc.
  destruct (subprocess_run w (S (calls s')) [p; py "-version"])
    as [e'|rc|e']; try destruct e'; reflexivity.
Qed.

End Locator.

(** ** What a whole run starts and answers *)

Lemma build_command_not_probe (ffmpeg_path input_file output_file text : str)
    (font_size : Z) (font_color : str) :
  ~ is_probe (build_command ffmpeg_path input_file output_file text
                font_size font_color).
Proof. intros [tool H]. unfold build_command in H. discriminate H. Qed.

Lemma build_command_inj (p p' input_file output_file text : str)
    (font_size : Z) (font_color : str) :
  build_command p input_file output_file text font_size font_color =
  build_command p' input_file output_file text font_size font_color ->
  p = p'.
Proof. unfold build_command. intro H. injection H. auto. Qed.

Section Run.

Variable w : World.
Variables input_file output_file text : str.
Variable font_size : Z.
Variable font_color : str.

(** Every child of a run is a version query or ffmpeg on the built
    command. *)
Lemma process_video_spawns (argv : list str) :
  In argv (spawned (events w
    (process_video w input_file output_file text font_size font_color))) ->
  is_probe argv \/
  exists ffmpeg_path,
    argv = build_command ffmpeg_path input_file output_file text
             font_size font_color.
Proof.
  unfold events.
  destruct (process_video_cases w input_file output_file text font_size
              font_color (start w))
    as [(_ & evs & Ho & Hp) | (p & s1 & evs & Hrun & _ & Ho & Hp & _)].
  - rewrite Ho. cbn [start out app]. intro Hin. left.
    rewrite Forall_forall in Hp. auto.
  - rewrite Hrun, run_command_spawned, Ho. cbn [start out app].
    intro Hin. apply in_app_or in Hin. destruct Hin as [Hin|Hin].
    + left. rewrite Forall_forall in Hp. auto.
    + right. exists p. destruct (popen w _); [contradiction|].
      destruct Hin as [<-|[]]. reflexivity.
Qed.

(** When ffmpeg was started on the command built from [ffmpeg_path], the
    run is the runner on that command, after events that start nothing
    but version queries. *)
Lemma process_video_started (ffmpeg_path : str) :
  In (build_command ffmpeg_path input_file output_file text
        font_size font_color)
     (spawned (events w
        (process_video w input_file output_file text font_size font_color))) ->
  exists s1,
    process_video w input_file output_file text font_size font_color (start w) =
    run_command w
      (build_command ffmpeg_path input_file output_file text
         font_size font_color) output_file s1 /\
    Forall is_probe (spawned (out s1)).
Proof.
  unfold events.
  destruct (process_video_cases w input_file output_file text font_size
              font_color (start w))
    as [(_ & evs & Ho & Hp) | (p & s1 & evs & Hrun & _ & Ho & Hp & _)].
  - rewrite Ho. cbn [start out app]. intro Hin. exfalso.
    rewrite Forall_forall in Hp.
    exact (build_command_not_probe _ _ _ _ _ _ (Hp _ Hin)).
  - rewrite Hrun, run_command_spawned, Ho. cbn [start out app].
    intro Hin. apply in_app_or in Hin. destruct Hin as [Hin|Hin].
    + exfalso. rewrite Forall_forall in Hp.
      exact (build_command_not_probe _ _ _ _ _ _ (Hp _ Hin)).
    + destruct (popen w _); [contradiction|].
      destruct Hin as [Heq|[]]. apply build_command_inj in Heq. subst p.
      exists s1. split; [reflexivity|]. rewrite Ho. exact Hp.
Qed.

End Run.

(** ** The properties of the specification *)

(** C3: when the ffmpeg child of a run exits with code zero but the
    output file is then missing or empty, the runner, and with it the
    whole run, answers [False]. *)
Theorem exit_zero_without_output_fails (w : World)
    (input_file output_file text : str) (font_size : Z) (font_color : str)
    (ffmpeg_path : str) (lines : list str) (after : FS) :
  let command :=
    build_command ffmpeg_path input_file output_file text font_size font_color in
  let run := process_video w input_file output_file text font_size font_color in
  In command (spawned (events w run)) ->
  popen w command = PopenRuns lines (Exits 0 after) ->
  fs_exists after output_file = false \/ fs_size after output_file = 0%Z ->
  result w run = Ret false /\
  forall s, fst (run_command w command output_file s) = Ret false.
Proof.
  intros command run Hin Hp Hbad. subst command run. split.
  - destruct (process_video_started w _ _ _ _ _ _ Hin) as (s1 & Hrun & _).
    unfold result. rewrite Hrun.
    exact (run_command_silent w _ _ _ _ s1 Hp Hbad).
  - intro s. exact (run_command_silent w _ _ _ _ s Hp Hbad).
Qed.

(** C4: when the ffmpeg child of a run exits with a non-zero code after
    [n] lines of output, the run answers [False] and ends with the failure
    report, whose body is the last [min 30 n] of these lines (all of them
    when [n <= 30]), each printed without its trailing white space. *)
Theorem nonzero_exit_reports_last_lines (w : World)
    (input_file output_file text : str) (font_size : Z) (font_color : str)
    (ffmpeg_path : str) (lines : list str) (returncode : Z) (after : FS) :
  let command :=
    build_command ffmpeg_path input_file output_file text font_size font_color in
  let run := process_video w input_file output_file text font_size font_color in
  let shown := last_n (Nat.min 30 (length lines)) lines in
  In command (spawned (events w run)) ->
  popen w command = PopenRuns lines (Exits returncode after) ->
  returncode <> 0%Z ->
  result w run = Ret false /\
  (exists before,
     events w run =
     before ++ [Spawn command] ++ progress_events lines
            ++ failure_events returncode shown /\
     Forall is_probe (spawned before)) /\
  length shown = Nat.min 30 (length lines) /\
  (length lines <= 30 -> shown = lines) /\
  (exists earlier, lines = earlier ++ shown).
Proof.
  intros command run shown Hin Hp Hrc. subst command run.
  destruct (process_video_started w _ _ _ _ _ _ Hin) as (s1 & Hrun & Hprobes).
  pose proof (run_command_failure w _ output_file _ _ _ s1 Hp Hrc) as Hfail.
  unfold result, events. rewrite Hrun, Hfail. cbn [fst snd out].
  split; [reflexivity|]. split.
  - exists (out s1). unfold shown. rewrite <- error_lines_last.
    split; [reflexivity | exact Hprobes].
  - unfold shown. split; [|split].
    + rewrite last_n_length. lia.
    + intro Hle. unfold last_n. rewrite Nat.min_r by lia.
      rewrite Nat.sub_diag. reflexivity.
    + apply last_n_suffix.
Qed.

(** C5 as stated fails: with an empty input file the run still starts
    child processes, the two version queries that come before the
    validation. *)
Lemma empty_input_starts_version_queries :
  fs_exists (init_fs Sample.empty_input) Sample.clip = true /\
  fs_is_file (init_fs Sample.empty_input) Sample.clip = true /\
  fs_size (init_fs Sample.empty_input) Sample.clip = 0%Z /\
  result Sample.empty_input
    (validate_input_file Sample.empty_input Sample.clip) = Ret false /\
  spawned (events Sample.empty_input
             (process_video Sample.empty_input Sample.clip Sample.outfile
                Sample.hello 48 (py "white"))) =
  [ [py "ffmpeg"; py "-version"]; [py "ffmpeg"; py "-version"] ] /\
  spawned (events Sample.empty_input
             (process_video Sample.empty_input Sample.clip Sample.outfile
                Sample.hello 48 (py "white"))) <> [].
Proof.
  split; [|split; [|split; [|split; [|split]]]];
    try (vm_compute; reflexivity).
  vm_compute. discriminate.
Qed.

(** C5, amended: for an input file that exists, is a regular file and has
    size zero, the run does not succeed and ffmpeg is never started on
    the video: the only children of the run are version queries; and
    [validate_input_file] answers [False], provided no lookup on the
    input path fails. *)
Theorem empty_input_never_starts_ffmpeg (w : World)
    (input_file output_file text : str) (font_size : Z) (font_color : str) :
  fs_exists (init_fs w) input_file = true ->
  fs_is_file (init_fs w) input_file = true ->
  fs_size (init_fs w) input_file = 0%Z ->
  (forall s, fs s = init_fs w ->
             (forall l, fs_error (init_fs w) l input_file = None) ->
             fst (validate_input_file w input_file s) = Ret false) /\
  result w (process_video w input_file output_file text font_size font_color)
    <> Ret true /\
  Forall is_probe
    (spawned (events w
       (process_video w input_file output_file text font_size font_color))).
Proof.
  intros He Hf Hz. split.
  - intros s Hs Hok.
    unfold validate_input_file, bind, get_fs, call, path_exists,
      path_is_file, stat_size.
    rewrite Hs, !Hok, He, Hf, Hz. reflexivity.
  - unfold result, events.
    destruct (process_video_cases w input_file output_file text font_size
                font_color (start w))
      as [(Hr & evs & Ho & Hp)
         | (p & s1 & evs & _ & _ & _ & _ & _ & _ & _ & Hnz & _)].
    + split; [exact Hr|]. rewrite Ho. exact Hp.
    + exfalso. apply Hnz. exact Hz.
Qed.

(** C6: [main] exits with 0 when the pipeline answers [True], with 1 when
    it answers [False] or raises anything (a keyboard interrupt
    included); when the parser exits, [main] exits with the parser's
    status, having printed the banner and, for a non-zero status, the
    tip, and nothing else. *)
Theorem main_exit_status (w : World) (argv : list str) :
  (forall a, parse_args w argv = Parsed a ->
     let outcome :=
       fst (process_video w (arg_input a) (arg_output a) (arg_text a)
              (arg_font_size a) (arg_font_color a) (after_banner w)) in
     (outcome = Ret true -> result w (main w argv) = Ret 0%Z) /\
     (outcome = Ret false -> result w (main w argv) = Ret 1%Z) /\
     (forall e, outcome = Raise e -> result w (main w argv) = Ret 1%Z)) /\
  (forall code, parse_args w argv = ParserExit code ->
     result w (main w argv) = Ret code /\
     events w (main w argv) =
     banner_events ++ (if (code =? 0)%Z then [] else tip_events)).
Proof.
  unfold result, events, main. rewrite !bind_print.
  cbn [start calls fs out app]. fold banner_events. fold (after_banner w).
  split.
  - intros a Ha. rewrite Ha. cbv zeta.
    destruct (process_video w (arg_input a) (arg_output a) (arg_text a)
                (arg_font_size a) (arg_font_color a) (after_banner w))
      as [[[|]|e] s']; cbn [fst]; repeat split;
      try discriminate; try reflexivity.
    intros e' He'. destruct e; reflexivity.
  - intros code Hc. rewrite Hc.
    destruct (code =? 0)%Z; cbn [negb]; split; reflexivity.
Qed.

(** C7 as stated fails: the parent directory [vault/new] does not
    exist, yet [validate_output_path] does not answer [False]; the
    existence check is refused ([vault] may not be searched) and the
    [PermissionError] is raised to the caller. *)
Lemma missing_parent_raises :
  fs_exists (init_fs Scenario.vault)
    (path_parent Scenario.vault Scenario.vault_output) = false /\
  result Scenario.vault
    (validate_output_path Scenario.vault Scenario.vault_output)
  = Raise (OtherException (py "PermissionError")
             (py "[Errno 13] Permission denied")) /\
  result Scenario.vault
    (validate_output_path Scenario.vault Scenario.vault_output)
  <> Ret false.
Proof.
  split; [reflexivity|]. split; [reflexivity|].
  vm_compute. discriminate.
Qed.

(** C7, amended: provided the existence check on the parent directory
    does not itself fail, [validate_output_path] answers [False] exactly
    when the parent directory is missing or not writable; a failure of
    that check, or of the check for the destination, is raised to the
    caller; when the parent exists and is writable and the destination
    exists already it answers [True], printing the warning and the
    confirmation, nothing else. *)
Theorem validate_output_path_spec (w : World) (output_file : str) (s : state) :
  let parent_dir := path_parent w output_file in
  (fs_error (fs s) Exists parent_dir = None ->
   (fst (validate_output_path w output_file s) = Ret false <->
    fs_exists (fs s) parent_dir = false \/
    fs_writable (fs s) parent_dir = false)) /\
  (forall d, fs_error (fs s) Exists parent_dir = Some d ->
     fst (validate_output_path w output_file s) = Raise (os_error d)) /\
  (forall d,
     fs_error (fs s) Exists parent_dir = None ->
     fs_exists (fs s) parent_dir = true ->
     fs_writable (fs s) parent_dir = true ->
     fs_error (fs s) Exists output_file = Some d ->
     fst (validate_output_path w output_file s) = Raise (os_error d)) /\
  (fs_error (fs s) Exists parent_dir = None ->
   fs_exists (fs s) parent_dir = true ->
   fs_writable (fs s) parent_dir = true ->
   fs_error (fs s) Exists output_file = None ->
   fs_exists (fs s) output_file = true ->
   validate_output_path w output_file s =
   (Ret true,
    mkState (calls s) (fs s)
      (out s ++
       [ Print (([9888%N] ++ py " Warning: Output file already exists and will be overwritten: "
                 ++ output_file) ++ nl);
         Print (([10003%N] ++ py " Output path is valid: " ++ output_file) ++ nl) ]))).
Proof.
  cbv zeta.
  unfold validate_output_path, bind, get_fs, call, path_exists.
  split; [|split; [|split]].
  - intro Hok. rewrite Hok.
    destruct (fs_exists (fs s) (path_parent w output_file)); cbn [negb].
    + destruct (fs_writable (fs s) (path_parent w output_file)); cbn [negb].
      * destruct (fs_error (fs s) Exists output_file);
          [|destruct (fs_exists (fs s) output_file)];
          cbn [fst]; (split; [discriminate | intros [H|H]; discriminate H]).
      * split; auto.
    + split; auto.
  - intros d Hd. rewrite Hd. reflexivity.
  - intros d Hok Hp Hw Hd. rewrite Hok, Hp, Hw, Hd. reflexivity.
  - intros Hok Hp Hw Hoko He. rewrite Hok, Hp, Hw, Hoko, He.
    cbn [negb print emit ret calls fs out].
    rewrite <- app_assoc. reflexivity.
Qed.

(** C8 as stated fails: no ffmpeg is on the search path and no fallback
    location is looked at (the platform is not Windows), yet the locator
    does not return [None]: the version query could not be started for
    another reason than a missing file, and that [PermissionError] is
    raised to the caller. *)
Lemma find_ffmpeg_unsearchable_path_raises :
  raised (subprocess_run Scenario.unsearchable_path 0 path_probe)
  = Some (OtherException (py "PermissionError")
            (py "[Errno 13] Permission denied: 'ffmpeg'")) /\
  platform Scenario.unsearchable_path <> py "win32" /\
  result Scenario.unsearchable_path (find_ffmpeg Scenario.unsearchable_path)
  = Raise (OtherException (py "PermissionError")
             (py "[Errno 13] Permission denied: 'ffmpeg'")) /\
  result Scenario.unsearchable_path (find_ffmpeg Scenario.unsearchable_path)
  <> Ret None.
Proof.
  split; [reflexivity|]. split; [vm_compute; discriminate|].
  split; [reflexivity|]. vm_compute. discriminate.
Qed.

(** C8, amended: when the version query on the bare name ends with an
    exception, the locator's answer is decided by the kind of exception.
    For [FileNotFoundError] or a timeout, alike, it returns [None] and
    does not raise, provided that (on Windows, where alone they are
    looked at) neither the WinGet pattern nor a fixed location matches.
    Any other exception is not caught: the locator raises it. *)
Theorem find_ffmpeg_absent (w : World) (e : exn) :
  raised (subprocess_run w 0 path_probe) = Some e ->
  (is_not_found e = true ->
   (platform w = py "win32" ->
    glob w (winget_pattern w) = [] /\
    Forall (fun location => os_path_exists (init_fs w) location = false)
      program_files_locations) ->
   result w (find_ffmpeg w) = Ret None) /\
  (is_not_found e = false ->
   result w (find_ffmpeg w) = Raise e).
Proof.
  intro Hr. unfold result. split.
  - intros He Hfb. apply (find_ffmpeg_none w (start w) e Hr); [|exact Hfb].
    destruct e; try discriminate He; eexists; [left | right]; reflexivity.
  - intro He.
    unfold find_ffmpeg, bind, try_except, run_probe. fold path_probe.
    cbn [start calls] in *.
    destruct (subprocess_run w 0 path_probe) as [e'|rc|e'];
      cbn [raised] in Hr; [|discriminate|];
      injection Hr as ->; destruct e; try discriminate He; reflexivity.
Qed.

(** C9: when the version query on the bare name completes, whatever its
    return code, the locator returns the bare name. *)
Theorem find_ffmpeg_ignores_status (w : World) (returncode : Z) :
  subprocess_run w 0 path_probe = Completed returncode ->
  result w (find_ffmpeg w) = Ret (Some (py "ffmpeg")).
Proof.
  intro H. unfold result.
  exact (find_ffmpeg_completed w (start w) returncode H).
Qed.

(** C10: when the locator has returned a path, the checker calls
    [subprocess.run] a second time, on that path; if this second query
    times out or raises another [Exception], the checker returns [None]
    and the run answers [False]. *)
Theorem check_ffmpeg_second_probe (w : World) (ffmpeg_path : str) (e : exn) :
  result w (find_ffmpeg w) = Ret (Some ffmpeg_path) ->
  raised (subprocess_run w 1 [ffmpeg_path; py "-version"]) = Some e ->
  is_Exception e = true ->
  calls (snd (check_ffmpeg w (start w))) = 2%nat /\
  result w (check_ffmpeg w) = Ret None /\
  forall input_file output_file text font_size font_color,
    result w (process_video w input_file output_file text font_size font_color)
    = Ret false.
Proof.
  intros Hfind Hr He. unfold result in *.
  split; [exact (check_ffmpeg_calls w (start w) ffmpeg_path Hfind)|].
  pose proof (check_ffmpeg_second_raises w (start w) ffmpeg_path e Hfind Hr He)
    as Hcheck.
  split; [exact Hcheck|].
  intros input_file output_file text font_size font_color.
  unfold process_video. rewrite !bind_print, bind_step.
  match goal with
  | |- context [check_ffmpeg w ?s0] =>
      pose proof (check_ffmpeg_result w s0 (start w) eq_refl eq_refl) as Hsame
  end.
  rewrite Hcheck in Hsame.
  match goal with
  | |- context [check_ffmpeg w ?s0] => destruct (check_ffmpeg w s0) as [r s1]
  end.
  cbn [fst] in Hsame. subst r. reflexivity.
Qed.

(** ** The theorems at work on the sample worlds *)

Lemma exit_zero_without_output_fails_witness :
  result Sample.no_output
    (process_video Sample.no_output Sample.clip Sample.outfile Sample.hello
       48 (py "white")) = Ret false.
Proof.
  refine (proj1 (exit_zero_without_output_fails Sample.no_output
                   Sample.clip Sample.outfile Sample.hello 48 (py "white")
                   (py "ffmpeg") Sample.ffmpeg_lines Sample.files_before
                   _ _ _)).
  - vm_compute. do 2 right. left. reflexivity.
  - reflexivity.
  - left. reflexivity.
Defined.

Lemma nonzero_exit_reports_last_lines_witness :
  result Sample.failing
    (process_video Sample.failing Sample.clip Sample.outfile Sample.hello
       48 (py "white")) = Ret false /\
  length (last_n (Nat.min 30 (length Sample.many_lines)) Sample.many_lines)
  = 30%nat.
Proof.
  pose proof (nonzero_exit_reports_last_lines Sample.failing
                Sample.clip Sample.outfile Sample.hello 48 (py "white")
                (py "ffmpeg") Sample.many_lines 1 Sample.files_before) as H.
  cbv zeta in H.
  destruct H as (Hres & _ & Hlen & _).
  - vm_compute. do 2 right. left. reflexivity.
  - reflexivity.
  - discriminate.
  - split; [exact Hres | exact Hlen].
Defined.

Lemma empty_input_never_starts_ffmpeg_witness :
  fst (validate_input_file Sample.empty_input Sample.clip
         (start Sample.empty_input)) = Ret false /\
  Forall is_probe
    (spawned (events Sample.empty_input
       (process_video Sample.empty_input Sample.clip Sample.outfile
          Sample.hello 48 (py "white")))).
Proof.
  split.
  - refine (proj1 (empty_input_never_starts_ffmpeg Sample.empty_input
                     Sample.clip Sample.outfile Sample.hello 48
                     (py "white") eq_refl eq_refl eq_refl)
                  (start Sample.empty_input) eq_refl _).
    intro l. reflexivity.
  - exact (proj2 (proj2 (empty_input_never_starts_ffmpeg Sample.empty_input
                           Sample.clip Sample.outfile Sample.hello 48
                           (py "white") eq_refl eq_refl eq_refl))).
Defined.

Lemma main_exit_status_witness :
  result Sample.good (main Sample.good Sample.argv0) = Ret 0%Z /\
  result Sample.no_output (main Sample.no_output Sample.argv0) = Ret 1%Z /\
  result Sample.interrupted (main Sample.interrupted Sample.argv0) = Ret 1%Z /\
  result Sample.denied (main Sample.denied Sample.argv0) = Ret 1%Z /\
  result Sample.good (main Sample.good [Sample.clip]) = Ret 2%Z.
Proof.
  split; [|split; [|split; [|split]]].
  - refine (proj1 (proj1 (main_exit_status Sample.good Sample.argv0)
                     _ eq_refl) _).
    vm_compute. reflexivity.
  - refine (proj1 (proj2 (proj1 (main_exit_status Sample.no_output Sample.argv0)
                            _ eq_refl)) _).
    vm_compute. reflexivity.
  - refine (proj2 (proj2 (proj1 (main_exit_status Sample.interrupted Sample.argv0)
                            _ eq_refl)) KeyboardInterrupt _).
    vm_compute. reflexivity.
  - refine (proj2 (proj2 (proj1 (main_exit_status Sample.denied Sample.argv0)
                            _ eq_refl))
              (OtherException (py "PermissionError") (py "Permission denied")) _).
    vm_compute. reflexivity.
  - refine (proj1 (proj2 (main_exit_status Sample.good [Sample.clip])
                     2%Z eq_refl)).
Defined.

Lemma validate_output_path_spec_witness :
  fst (validate_output_path Sample.good Sample.outfile
         (mkState 0 Sample.files_after [])) = Ret true.
Proof.
  rewrite (proj2 (proj2 (proj2 (validate_output_path_spec Sample.good
                                  Sample.outfile
                                  (mkState 0 Sample.files_after []))))
             eq_refl eq_refl eq_refl eq_refl eq_refl).
  reflexivity.
Defined.

Lemma find_ffmpeg_absent_witness :
  result Sample.not_installed (find_ffmpeg Sample.not_installed) = Ret None /\
  result Sample.windows_hanging (find_ffmpeg Sample.windows_hanging) = Ret None /\
  result Scenario.launch_refused (find_ffmpeg Scenario.launch_refused)
  = Raise (OtherException (py "OSError") (py "[Errno 8] Exec format error")).
Proof.
  split; [|split].
  - refine (proj1 (find_ffmpeg_absent Sample.not_installed
                     (FileNotFoundError (py "No such file or directory"))
                     eq_refl) eq_refl _).
    intro H. vm_compute in H. discriminate H.
  - refine (proj1 (find_ffmpeg_absent Sample.windows_hanging
                     (TimeoutExpired (py "timed out after 5 seconds"))
                     eq_refl) eq_refl _).
    intros _. split; [reflexivity|].
    repeat constructor.
  - exact (proj2 (find_ffmpeg_absent Scenario.launch_refused
                    (OtherException (py "OSError")
                       (py "[Errno 8] Exec format error"))
                    eq_refl) eq_refl).
Defined.

Lemma find_ffmpeg_ignores_status_witness :
  result Sample.odd_status (find_ffmpeg Sample.odd_status)
  = Ret (Some (py "ffmpeg")).
Proof.
  exact (find_ffmpeg_ignores_status Sample.odd_status 1 eq_refl).
Defined.

Lemma check_ffmpeg_second_probe_witness :
  result Sample.second_times_out (check_ffmpeg Sample.second_times_out)
  = Ret None.
Proof.
  refine (proj1 (proj2 (check_ffmpeg_second_probe Sample.second_times_out
                          (py "ffmpeg")
                          (TimeoutExpired (py "timed out after 5 seconds"))
                          _ _ _))); reflexivity.
Defined.

(** ** More about the validators *)

Section Validators.

Variable w : World.

Lemma for_each_listing (names : list str) (s : state) :
  for_each names (fun f =>
    if existsb (fun suffix => ends_with suffix f) media_suffixes
    then print (py "  - " ++ f)
    else ret tt) s =
  (Ret tt,
   mkState (calls s) (fs s)
     (out s ++ map (fun f => Print ((py "  - " ++ f) ++ nl))
                   (filter is_media names))).
Proof.
  revert s. induction names as [|f names IH]; intro s.
  - cbn. rewrite app_nil_r. destruct s; reflexivity.
  - cbn [for_each filter]. unfold bind. unfold is_media at 1.
    destruct (existsb (fun suffix => ends_with suffix f) media_suffixes).
    + cbn [print emit]. rewrite IH. cbn [calls fs out map].
      rewrite <- app_assoc. reflexivity.
    + cbn [ret]. rewrite IH. reflexivity.
Qed.

(** The run of [validate_input_file] on a missing file. *)
Lemma validate_input_file_missing (input_file : str) (s : state) :
  path_exists (fs s) input_file = Ret false ->
  validate_input_file w input_file s =
  match getcwd w with
  | Raise e =>
      (Raise e,
       mkState (calls s) (fs s)
         (out s ++ [Print ((nl ++ [10007%N] ++ py " ERROR: Input file not found: "
                            ++ input_file) ++ nl)]))
  | Ret cwd =>
      let s3 :=
        mkState (calls s) (fs s) (out s ++ missing_input_events cwd input_file) in
      match listdir w (py ".") with
      | Ret names =>
          (Ret false,
           mkState (calls s) (fs s)
             (out s3 ++ map (fun f => Print ((py "  - " ++ f) ++ nl))
                            (filter is_media names)))
      | Raise KeyboardInterrupt => (Raise KeyboardInterrupt, s3)
      | Raise e =>
          (Ret false,
           mkState (calls s) (fs s)
             (out s3 ++ [Print ((py "  Could not list files: " ++ str_of_exn e) ++ nl)]))
      end
  end.
Proof.
  intro Hmiss. unfold validate_input_file.
  rewrite bind_step. cbn [get_fs].
  rewrite bind_step. unfold call at 1. rewrite Hmiss. cbn [negb].
  rewrite bind_print, bind_step. unfold call at 1.
  destruct (getcwd w) as [cwd|e]; [|reflexivity].
  rewrite !bind_print. cbn [calls fs out].
  repeat rewrite <- app_assoc. cbn [app].
  rewrite bind_step. unfold try_except.
  destruct (listdir w (py ".")) as [names|e].
  - rewrite for_each_listing. reflexivity.
  - destruct e; reflexivity.
Qed.

End Validators.



(** X2: for a missing input file, when [os.getcwd] answers,
    [validate_input_file] answers [False] and lists, after its three
    header lines, exactly the names of the current directory that end in
    [.mp4], [.MP4], [.avi] or [.mov], in directory order. *)
Theorem missing_input_lists_media (w : World) (input_file cwd : str)
    (names : list str) (s : state) :
  path_exists (fs s) input_file = Ret false ->
  getcwd w = Ret cwd ->
  listdir w (py ".") = Ret names ->
  validate_input_file w input_file s =
  (Ret false,
   mkState (calls s) (fs s)
     (out s ++ missing_input_events cwd input_file
            ++ map (fun f => Print ((py "  - " ++ f) ++ nl))
                   (filter is_media names))).
Proof.
  intros Hmiss Hcwd Hls.
  rewrite (validate_input_file_missing w input_file s Hmiss), Hcwd, Hls.
  cbn [out]. rewrite <- app_assoc. reflexivity.
Qed.

(** X3: when the directory listing itself fails with an [Exception], the
    failure is reported in one line and [validate_input_file] still
    answers [False] for the missing file. *)
Theorem missing_input_listing_failure (w : World) (input_file cwd : str)
    (e : exn) (s : state) :
  path_exists (fs s) input_file = Ret false ->
  getcwd w = Ret cwd ->
  listdir w (py ".") = Raise e ->
  is_Exception e = true ->
  validate_input_file w input_file s =
  (Ret false,
   mkState (calls s) (fs s)
     (out s ++ missing_input_events cwd input_file
            ++ [Print ((py "  Could not list files: " ++ str_of_exn e) ++ nl)])).
Proof.
  intros Hmiss Hcwd Hls He.
  rewrite (validate_input_file_missing w input_file s Hmiss), Hcwd, Hls.
  destruct e; try discriminate He; cbn [out]; rewrite <- app_assoc;
    reflexivity.
Qed.

(** ** More about the locator and the checker *)

Section LocatorCases.

Variable w : World.

(** The locator after a query that was not found or timed out. *)
Lemma find_ffmpeg_fallback (s : state) (e : exn) :
  raised (subprocess_run w (calls s) path_probe) = Some e ->
  is_not_found e = true ->
  fst (find_ffmpeg w s) =
  Ret (if str_eqb (platform w) (py "win32")
       then match glob w (winget_pattern w) with
            | m :: _ => Some m
            | [] => find (os_path_exists (fs s)) program_files_locations
            end
       else None).
Proof.
  intros Hr He.
  unfold find_ffmpeg, bind, try_except, run_probe. fold path_probe.
  destruct (subprocess_run w (calls s) path_probe) as [e'|rc|e'];
    cbn [raised] in Hr; [|discriminate|];
    injection Hr as ->; destruct e; try discriminate He;
    cbn [ret]; destruct (str_eqb (platform w) (py "win32"));
    try reflexivity; destruct (glob w (winget_pattern w)); reflexivity.
Qed.

(** The locator does not catch any other exception of the query. *)
Lemma find_ffmpeg_raises (s : state) (e : exn) :
  raised (subprocess_run w (calls s) path_probe) = Some e ->
  is_not_found e = false ->
  fst (find_ffmpeg w s) = Raise e.
Proof.
  intros Hr He.
  unfold find_ffmpeg, bind, try_except, run_probe. fold path_probe.
  destruct (subprocess_run w (calls s) path_probe) as [e'|rc|e'];
    cbn [raised] in Hr; [|discriminate|];
    injection Hr as ->; destruct e; try discriminate He; reflexivity.
Qed.

(** What the locator raises, the query raised. *)
Lemma find_ffmpeg_raise_inv (s : state) (e : exn) :
  fst (find_ffmpeg w s) = Raise e ->
  raised (subprocess_run w (calls s) path_probe) = Some e /\
  is_not_found e = false.
Proof.
  unfold find_ffmpeg, bind, try_except, run_probe. fold path_probe.
  destruct (subprocess_run w (calls s) path_probe) as [e'|rc|e'];
    cbn [raised]; try destruct e'; cbn [ret fst];
    try (intro H; injection H as <-; split; reflexivity);
    try discriminate;
    destruct (str_eqb (platform w) (py "win32")); try discriminate;
    destruct (glob w (winget_pattern w)); discriminate.
Qed.

Lemma check_ffmpeg_of_find_raise (s : state) (e : exn) :
  fst (find_ffmpeg w s) = Raise e -> fst (check_ffmpeg w s) = Raise e.
Proof.
  intro H. unfold check_ffmpeg. rewrite bind_step.
  destruct (find_ffmpeg w s) as [r s1]. cbn [fst] in H. subst r. reflexivity.
Qed.

(** What the checker raises is what the locator raised, or a keyboard
    interrupt during the second query. *)
Lemma check_ffmpeg_raise_inv (s : state) (e : exn) :
  fst (check_ffmpeg w s) = Raise e ->
  fst (find_ffmpeg w s) = Raise e \/ e = KeyboardInterrupt.
Proof.
  unfold check_ffmpeg. rewrite bind_step.
  destruct (find_ffmpeg w s) as [[[p|]|e0] s1]; cbn [fst].
  - unfold try_except, bind, run_probe.
    destruct (subprocess_run w (calls s1) [p; py "-version"])
      as [e'|rc|e']; try destruct e'; cbn [fst];
      try discriminate; intro H; injection H as <-; auto.
  - discriminate.
  - intro H. injection H as <-. auto.
Qed.

(** The checker answers with a path exactly when the locator gave it and
    the second query completed. *)
Lemma check_ffmpeg_some (s : state) (p : str) :
  fst (check_ffmpeg w s) = Ret (Some p) <->
  fst (find_ffmpeg w s) = Ret (Some p) /\
  exists returncode,
    subprocess_run w (S (calls s)) [p; py "-version"] = Completed returncode.
Proof.
  unfold check_ffmpeg. rewrite bind_step.
  pose proof (find_ffmpeg_calls w s) as Hc.
  destruct (find_ffmpeg w s) as [[[q|]|e0] s1]; cbn [fst snd] in *.
  - unfold try_except, bind, run_probe. rewrite Hc.
    split.
    + destruct (subprocess_run w (S (calls s)) [q; py "-version"])
        as [e'|rc|e'] eqn:Hrun; try destruct e'; cbn [fst];
        try discriminate.
      intro H. injection H as <-. split; [reflexivity|].
      exists rc. exact Hrun.
    + intros (Hq & rc & Hrun). injection Hq as ->. rewrite Hrun. reflexivity.
  - split; [discriminate | intros (H & _); discriminate H].
  - split; [discriminate | intros (H & _); discriminate H].
Qed.

(** The checker's whole run when the locator's query cannot be started
    and no fallback applies. *)
Lemma check_ffmpeg_not_found (s : state) (e : exn) :
  subprocess_run w (calls s) path_probe = NotLaunched e ->
  is_not_found e = true ->
  (platform w = py "win32" ->
   glob w (winget_pattern w) = [] /\
   Forall (fun location => fs_exists (fs s) location = false)
     program_files_locations) ->
  check_ffmpeg w s =
  (Ret None, mkState (S (calls s)) (fs s) (out s ++ not_found_events)).
Proof.
  intros Hrun He Hfb.
  assert (Hfind : find_ffmpeg w s = (Ret None, mkState (S (calls s)) (fs s) (out s))).
  { unfold find_ffmpeg, bind, try_except, run_probe. fold path_probe.
    rewrite Hrun.
    destruct e; try discriminate He; cbn [ret];
      (destruct (str_eqb (platform w) (py "win32")) eqn:Hp; [|reflexivity]);
      apply str_eqb_eq in Hp; destruct (Hfb Hp) as [Hg Hl]; rewrite Hg;
      inversion Hl as [|? ? H1 Hl']; subst;
      inversion Hl' as [|? ? H2 _]; subst;
      cbn [get_fs fs find program_files_locations];
      rewrite (os_path_exists_missing _ _ H1), (os_path_exists_missing _ _ H2);
      reflexivity. }
  unfold check_ffmpeg. rewrite bind_step, Hfind.
  rewrite !bind_print. cbn [ret calls fs out].
  unfold not_found_events. repeat rewrite <- app_assoc. reflexivity.
Qed.

End LocatorCases.

(** ** More about the process runner *)

Section RunnerCases.

Variable w : World.

(** [Popen] itself fails with an [Exception]: no child, the files
    untouched, the error reported, the answer [False]. *)
Lemma run_command_popen_raises (command : list str) (output_file : str)
    (e : exn) (s : state) :
  popen w command = PopenRaises e ->
  is_Exception e = true ->
  run_command w command output_file s =
  (Ret false, mkState (calls s) (fs s) (out s ++ crash_events e)).
Proof.
  intros Hp He. unfold run_command, try_except. rewrite Hp.
  cbn [raise].
  destruct e; try discriminate He;
    rewrite ?bind_print; cbn [bind emit ret calls fs out crash_events];
    repeat rewrite <- app_assoc; reflexivity.
Qed.

(** Reading the output or waiting fails with an [Exception]; the files
    are as the child has left them. *)
Lemma run_command_read_raises (command : list str) (output_file : str)
    (lines : list str) (e : exn) (after : FS) (s : state) :
  popen w command = PopenRuns lines (ReadRaises e after) ->
  is_Exception e = true ->
  run_command w command output_file s =
  (Ret false,
   mkState (calls s) after
     (out s ++ [Spawn command] ++ progress_events lines ++ crash_events e)).
Proof.
  intros Hp He. unfold run_command, try_except. rewrite Hp.
  rewrite bind_step. cbn [emit].
  rewrite bind_step, for_each_progress. cbn [calls fs out].
  rewrite bind_step. cbn [set_fs calls fs out raise].
  destruct e; try discriminate He;
    rewrite ?bind_print; cbn [bind emit ret calls fs out crash_events];
    repeat rewrite <- app_assoc; reflexivity.
Qed.

(** A keyboard interrupt while ffmpeg runs leaves the runner. *)
Lemma run_command_interrupted (command : list str) (output_file : str)
    (lines : list str) (after : FS) (s : state) :
  popen w command = PopenRuns lines (ReadRaises KeyboardInterrupt after) ->
  run_command w command output_file s =
  (Raise KeyboardInterrupt,
   mkState (calls s) after
     (out s ++ [Spawn command] ++ progress_events lines)).
Proof.
  intro Hp. unfold run_command, try_except. rewrite Hp.
  rewrite bind_step. cbn [emit].
  rewrite bind_step, for_each_progress. cbn [calls fs out].
  rewrite bind_step. cbn [set_fs calls fs out raise].
  rewrite <- app_assoc. reflexivity.
Qed.

(** A good run of the runner. *)
Lemma run_command_success (command : list str) (output_file : str)
    (lines : list str) (after : FS) (output_size : Z) (location : str)
    (s : state) :
  popen w command = PopenRuns lines (Exits 0 after) ->
  os_path_exists after output_file = true ->
  stat_size after output_file = Ret output_size ->
  output_size <> 0%Z ->
  abspath w output_file = Ret location ->
  run_command w command output_file s =
  (Ret true,
   mkState (calls s) after
     (out s ++ [Spawn command] ++ progress_events lines
            ++ success_events output_file output_size location)).
Proof.
  intros Hp He Hst Hz Hab. rewrite (run_command_exit_zero w _ _ _ _ s Hp).
  cbn [verdict Z.eqb negb fst snd].
  apply Z.eqb_neq in Hz. rewrite He, Hst, Hz, Hab.
  reflexivity.
Qed.

(** The runner answers [True] only after ffmpeg exited with 0 and left a
    non-empty output file. *)
Lemma run_command_true_inv (command : list str) (output_file : str) (s : state) :
  fst (run_command w command output_file s) = Ret true ->
  exists lines after,
    popen w command = PopenRuns lines (Exits 0 after) /\
    os_path_exists after output_file = true /\
    stat_size after output_file = Ret (fs_size after output_file) /\
    fs_size after output_file <> 0%Z /\
    fs (snd (run_command w command output_file s)) = after.
Proof.
  destruct (popen w command) as [e|lines [e after|returncode after]] eqn:Hp.
  - destruct (is_Exception e) eqn:He.
    + rewrite (run_command_popen_raises _ _ _ s Hp He). discriminate.
    + destruct e; try discriminate He.
      unfold run_command, try_except. rewrite Hp. discriminate.
  - destruct (is_Exception e) eqn:He.
    + rewrite (run_command_read_raises _ _ _ _ _ s Hp He). discriminate.
    + destruct e; try discriminate He.
      rewrite (run_command_interrupted _ _ _ _ s Hp). discriminate.
  - destruct (Z.eq_dec returncode 0) as [->|Hrc].
    + rewrite (run_command_exit_zero w _ output_file _ _ s Hp).
      cbn [verdict Z.eqb negb fst snd].
      destruct (os_path_exists after output_file) eqn:He; [|discriminate].
      pose proof (os_path_exists_true _ _ He) as Hex.
      destruct (stat_size after output_file) as [n|e1] eqn:Hst;
        [|discriminate].
      destruct (n =? 0)%Z eqn:Hz; [discriminate|].
      intros _. apply Z.eqb_neq in Hz.
      assert (Hn : n = fs_size after output_file).
      { unfold stat_size in Hst. rewrite Hex in Hst.
        destruct (fs_error after Stat output_file); [discriminate|].
        injection Hst as <-. reflexivity. }
      subst n. exists lines, after. auto.
    + rewrite (run_command_failure w _ output_file _ _ _ s Hp Hrc).
      discriminate.
Qed.

(** The runner lets nothing escape but a keyboard interrupt. *)
Lemma run_command_raise_inv (command : list str) (output_file : str)
    (s : state) (e : exn) :
  fst (run_command w command output_file s) = Raise e ->
  e = KeyboardInterrupt /\
  (popen w command = PopenRaises KeyboardInterrupt \/
   (exists lines after,
      popen w command = PopenRuns lines (ReadRaises KeyboardInterrupt after)) \/
   (exists lines after output_size,
      popen w command = PopenRuns lines (Exits 0 after) /\
      run_command w command output_file s =
      (Raise KeyboardInterrupt,
       mkState (calls s) after
         (out s ++ [Spawn command] ++ progress_events lines
                ++ completed_events output_file output_size)))).
Proof.
  destruct (popen w command) as [e0|lines [e0 after|returncode after]] eqn:Hp.
  - destruct (is_Exception e0) eqn:He.
    + rewrite (run_command_popen_raises _ _ _ s Hp He). discriminate.
    + destruct e0; try discriminate He.
      unfold run_command, try_except. rewrite Hp. cbn [raise fst].
      intro H. injection H as <-. auto.
  - destruct (is_Exception e0) eqn:He.
    + rewrite (run_command_read_raises _ _ _ _ _ s Hp He). discriminate.
    + destruct e0; try discriminate He.
      rewrite (run_command_interrupted _ _ _ _ s Hp). cbn [fst].
      intro H. injection H as <-. split; [reflexivity|]. right. left. eauto.
  - destruct (Z.eq_dec returncode 0) as [->|Hrc].
    + rewrite (run_command_exit_zero w _ output_file _ _ s Hp).
      cbn [verdict Z.eqb negb fst snd].
      destruct (os_path_exists after output_file); [|discriminate].
      destruct (stat_size after output_file) as [n|e1]; [|discriminate].
      destruct (n =? 0)%Z; [discriminate|].
      destruct (abspath w output_file) as [location|[]]; try discriminate.
      cbn [fst snd]. intro H. injection H as <-.
      split; [reflexivity|]. right. right. exists lines, after, n.
      split; reflexivity.
    + rewrite (run_command_failure w _ output_file _ _ _ s Hp Hrc).
      discriminate.
Qed.

End RunnerCases.

(** ** The pipeline, step by step *)

Section PipelineSteps.

Variable w : World.
Variables input_file output_file text : str.
Variable font_size : Z.
Variable font_color : str.

(** [process_video] as the sequence of its stages, with the state each
    stage starts from. *)
Lemma process_video_stages (s : state) :
  process_video w input_file output_file text font_size font_color s =
  match check_ffmpeg w (mkState (calls s) (fs s) (out s ++ started_events)) with
  | (Ret (Some (ch :: tool)), s4) =>
      match validate_input_file w input_file s4 with
      | (Ret true, s5) =>
          match validate_output_path w output_file s5 with
          | (Ret true, s6) =>
              run_command w
                (build_command (ch :: tool) input_file output_file text
                   font_size font_color)
                output_file
                (mkState (calls s6) (fs s6)
                   (out s6 ++ info_events input_file output_file text
                                font_size font_color))
          | (Ret false, s6) => (Ret false, s6)
          | (Raise e, s6) => (Raise e, s6)
          end
      | (Ret false, s5) => (Ret false, s5)
      | (Raise e, s5) => (Raise e, s5)
      end
  | (Ret _, s4) => (Ret false, s4)
  | (Raise e, s4) => (Raise e, s4)
  end.
Proof.
  unfold process_video.
  rewrite !bind_print, bind_step. cbn [calls fs out].
  repeat rewrite <- app_assoc. cbn [app]. fold started_events.
  destruct (check_ffmpeg w _) as [[[[|ch tool]|]|e] s4]; try reflexivity.
  rewrite bind_step.
  destruct (validate_input_file w input_file s4) as [[[|]|e] s5];
    try reflexivity.
  cbn [negb]. rewrite bind_step.
  destruct (validate_output_path w output_file s5) as [[[|]|e] s6];
    try reflexivity.
  cbn [negb]. rewrite !bind_print. cbn [calls fs out].
  repeat rewrite <- app_assoc. reflexivity.
Qed.

End PipelineSteps.

(** ** Further properties: the locator and the checker *)

(** X4: after a query that was not found or timed out, the fallback
    locations count on Windows only; there the first WinGet match wins
    over the fixed locations, and [C:\Program Files] over [C:\ffmpeg]. *)
Theorem find_ffmpeg_fallback_order (w : World) (e : exn) :
  raised (subprocess_run w 0 path_probe) = Some e ->
  is_not_found e = true ->
  (platform w <> py "win32" -> result w (find_ffmpeg w) = Ret None) /\
  (platform w = py "win32" ->
   (forall m rest, glob w (winget_pattern w) = m :: rest ->
      result w (find_ffmpeg w) = Ret (Some m)) /\
   (glob w (winget_pattern w) = [] ->
    os_path_exists (init_fs w) (py "C:\Program Files\ffmpeg\bin\ffmpeg.exe") = true ->
    result w (find_ffmpeg w)
    = Ret (Some (py "C:\Program Files\ffmpeg\bin\ffmpeg.exe"))) /\
   (glob w (winget_pattern w) = [] ->
    os_path_exists (init_fs w) (py "C:\Program Files\ffmpeg\bin\ffmpeg.exe") = false ->
    os_path_exists (init_fs w) (py "C:\ffmpeg\bin\ffmpeg.exe") = true ->
    result w (find_ffmpeg w) = Ret (Some (py "C:\ffmpeg\bin\ffmpeg.exe")))).
Proof.
  intros Hr He. unfold result.
  rewrite (find_ffmpeg_fallback w (start w) e Hr He).
  split.
  - intro Hp. destruct (str_eqb (platform w) (py "win32")) eqn:Hw;
      [|reflexivity].
    apply str_eqb_eq in Hw. contradiction.
  - intro Hp. apply str_eqb_eq in Hp. rewrite Hp.
    split; [|split].
    + intros m rest Hg. rewrite Hg. reflexivity.
    + intros Hg H1. rewrite Hg. cbn [start fs find program_files_locations].
      rewrite H1. reflexivity.
    + intros Hg H1 H2. rewrite Hg. cbn [start fs find program_files_locations].
      rewrite H1, H2. reflexivity.
Qed.

(** X5: an exception of the first version query other than
    [FileNotFoundError] and [TimeoutExpired] is caught nowhere below
    [main]: the locator, the checker and [process_video] all raise it,
    and [main] exits with 1. *)
Theorem first_probe_error_escapes (w : World) (e : exn) :
  raised (subprocess_run w 0 path_probe) = Some e ->
  is_not_found e = false ->
  result w (find_ffmpeg w) = Raise e /\
  result w (check_ffmpeg w) = Raise e /\
  (forall input_file output_file text font_size font_color,
     result w (process_video w input_file output_file text font_size font_color)
     = Raise e) /\
  (forall argv a, parse_args w argv = Parsed a ->
     result w (main w argv) = Ret 1%Z).
Proof.
  intros Hr He. unfold result.
  assert (Hcheck : forall evs,
            fst (check_ffmpeg w (mkState 0 (init_fs w) evs)) = Raise e).
  { intro evs. apply check_ffmpeg_of_find_raise.
    apply find_ffmpeg_raises; assumption. }
  split; [apply find_ffmpeg_raises; assumption|].
  split; [apply (Hcheck [])|].
  split.
  - intros. rewrite process_video_stages. cbn [start calls fs out].
    specialize (Hcheck ([] ++ started_events)).
    destruct (check_ffmpeg w _) as [r s4]. cbn [fst] in Hcheck. subst r.
    reflexivity.
  - intros argv a Ha. unfold main. rewrite !bind_print, Ha.
    rewrite process_video_stages. cbn [start calls fs out].
    match goal with
    | |- context [check_ffmpeg w (mkState 0 (init_fs w) ?evs)] =>
        specialize (Hcheck evs)
    end.
    destruct (check_ffmpeg w _) as [r s4]. cbn [fst] in Hcheck. subst r.
    destruct e; reflexivity.
Qed.

(** X6: the checker returns a path exactly when the locator returned
    that path and the second version query, on that path, completed; the
    return code of the second query plays no part either. *)
Theorem check_ffmpeg_returns_iff (w : World) (ffmpeg_path : str) :
  result w (check_ffmpeg w) = Ret (Some ffmpeg_path) <->
  result w (find_ffmpeg w) = Ret (Some ffmpeg_path) /\
  exists returncode,
    subprocess_run w 1 [ffmpeg_path; py "-version"] = Completed returncode.
Proof. unfold result. apply (check_ffmpeg_some w (start w)). Qed.

(** ** Further properties: the whole run *)

Section PipelineFacts.

Variable w : World.
Variables input_file output_file text : str.
Variable font_size : Z.
Variable font_color : str.

(** What follows from the answer [True], from any state. *)
Lemma process_video_true_inv (s : state) :
  fst (process_video w input_file output_file text font_size font_color s)
  = Ret true ->
  exists ffmpeg_path lines after,
    fst (check_ffmpeg w s) = Ret (Some ffmpeg_path) /\
    popen w (build_command ffmpeg_path input_file output_file text
               font_size font_color)
    = PopenRuns lines (Exits 0 after) /\
    fs_exists after output_file = true /\
    fs_size after output_file <> 0%Z /\
    fs (snd (process_video w input_file output_file text font_size
               font_color s)) = after /\
    fs_exists (fs s) input_file = true /\
    fs_is_file (fs s) input_file = true /\
    fs_size (fs s) input_file <> 0%Z /\
    fs_exists (fs s) (path_parent w output_file) = true /\
    fs_writable (fs s) (path_parent w output_file) = true.
Proof.
  rewrite process_video_stages.
  pose proof (check_ffmpeg_result w
                (mkState (calls s) (fs s) (out s ++ started_events)) s
                eq_refl eq_refl) as Hsame.
  destruct (check_ffmpeg_tame w
              (mkState (calls s) (fs s) (out s ++ started_events)))
    as (Hfc & _).
  destruct (check_ffmpeg w _) as [[[[|ch tool]|]|e] s4];
    cbn [fst snd fs] in *; try discriminate.
  destruct (validate_input_file_childless w input_file s4) as (Hfi & _).
  pose proof (validate_input_file_true w input_file s4) as Hti.
  destruct (validate_input_file w input_file s4) as [[[|]|e] s5];
    cbn [fst snd] in *; try discriminate.
  destruct (Hti eq_refl) as (Hi1 & Hi2 & _ & Hi3).
  apply path_exists_true in Hi1. destruct Hi1 as [_ Hi1].
  apply path_is_file_true in Hi2.
  destruct (validate_output_path_childless w output_file s5) as (Hfo & _).
  pose proof (validate_output_path_true w output_file s5) as Hto.
  destruct (validate_output_path w output_file s5) as [[[|]|e] s6];
    cbn [fst snd] in *; try discriminate.
  destruct (Hto eq_refl) as (Hp1 & Hp2 & _).
  apply path_exists_true in Hp1. destruct Hp1 as [_ Hp1].
  intro Htrue.
  destruct (run_command_true_inv w _ _ _ Htrue)
    as (lines & after & Hp & He & _ & Hz & Hfs).
  apply os_path_exists_true in He.
  exists (ch :: tool), lines, after.
  rewrite <- Hfc. rewrite Hfi in Hp1, Hp2.
  split; [symmetry; exact Hsame|].
  repeat (split; [assumption|]). assumption.
Qed.

End PipelineFacts.

Section HappyPath.

Variable w : World.

(** The checker's run when both version queries complete. *)
Lemma check_ffmpeg_ok (s : state) (rc0 rc1 : Z) :
  subprocess_run w (calls s) path_probe = Completed rc0 ->
  subprocess_run w (S (calls s)) path_probe = Completed rc1 ->
  check_ffmpeg w s =
  (Ret (Some (py "ffmpeg")),
   mkState (S (S (calls s))) (fs s)
     (out s ++ [ Spawn path_probe; Spawn path_probe;
                 Print (([10003%N] ++ py " FFmpeg found: " ++ py "ffmpeg") ++ nl) ])).
Proof.
  intros H0 H1.
  unfold check_ffmpeg, find_ffmpeg, bind, try_except, run_probe.
  fold path_probe. rewrite H0. cbn [ret calls fs out].
  fold path_probe. rewrite H1. cbn [print emit ret calls fs out].
  repeat rewrite <- app_assoc. reflexivity.
Qed.

Lemma validate_input_file_ok (input_file : str) (s : state) :
  path_exists (fs s) input_file = Ret true ->
  path_is_file (fs s) input_file = Ret true ->
  stat_size (fs s) input_file = Ret (fs_size (fs s) input_file) ->
  fs_size (fs s) input_file <> 0%Z ->
  validate_input_file w input_file s =
  (Ret true,
   mkState (calls s) (fs s)
     (out s ++
      [ Print (([10003%N] ++ py " Input file found: " ++ input_file ++ py " ("
                ++ format_commas (fs_size (fs s) input_file) ++ py " bytes)")
               ++ nl) ])).
Proof.
  intros He Hf Hst Hz. apply Z.eqb_neq in Hz.
  unfold validate_input_file, bind, get_fs, call.
  rewrite He, Hf, Hst, Hz. reflexivity.
Qed.

Lemma validate_output_path_ok (output_file : str) (existing : bool) (s : state) :
  path_exists (fs s) (path_parent w output_file) = Ret true ->
  fs_writable (fs s) (path_parent w output_file) = true ->
  path_exists (fs s) output_file = Ret existing ->
  fst (validate_output_path w output_file s) = Ret true.
Proof.
  intros Hp Hw Ho. unfold validate_output_path, bind, get_fs, call.
  rewrite Hp, Hw, Ho. destruct existing; reflexivity.
Qed.

End HappyPath.

(** X7: [process_video] answers [True] only if the checker returned a
    tool path, the input was an existing non-empty regular file, the
    output directory existed and was writable, ffmpeg was started on the
    command built from that path and exited with 0, and the output file
    exists with a size other than zero in the files ffmpeg left, which
    are the files at the end of the run. *)
Theorem process_video_true_sound (w : World)
    (input_file output_file text : str) (font_size : Z) (font_color : str) :
  result w (process_video w input_file output_file text font_size font_color)
  = Ret true ->
  exists ffmpeg_path lines after,
    result w (check_ffmpeg w) = Ret (Some ffmpeg_path) /\
    popen w (build_command ffmpeg_path input_file output_file text
               font_size font_color)
    = PopenRuns lines (Exits 0 after) /\
    fs_exists after output_file = true /\
    fs_size after output_file <> 0%Z /\
    fs (snd (process_video w input_file output_file text font_size
               font_color (start w))) = after /\
    fs_exists (init_fs w) input_file = true /\
    fs_is_file (init_fs w) input_file = true /\
    fs_size (init_fs w) input_file <> 0%Z /\
    fs_exists (init_fs w) (path_parent w output_file) = true /\
    fs_writable (init_fs w) (path_parent w output_file) = true.
Proof.
  unfold result. intro H.
  exact (process_video_true_inv w _ _ _ _ _ (start w) H).
Qed.

(** X8: once the arguments parse, [main] exits with 0 or 1, and with 0
    only if ffmpeg was started on the built command, exited with 0 and
    left a non-empty output file, which is there when [main] ends. *)
Theorem main_zero_sound (w : World) (argv : list str) (a : Args) :
  parse_args w argv = Parsed a ->
  (result w (main w argv) = Ret 0%Z \/ result w (main w argv) = Ret 1%Z) /\
  (result w (main w argv) = Ret 0%Z ->
   exists ffmpeg_path lines after,
     popen w (build_command ffmpeg_path (arg_input a) (arg_output a)
                (arg_text a) (arg_font_size a) (arg_font_color a))
     = PopenRuns lines (Exits 0 after) /\
     fs_exists after (arg_output a) = true /\
     fs_size after (arg_output a) <> 0%Z /\
     fs (snd (main w argv (start w))) = after).
Proof.
  intro Ha. unfold result, main. rewrite !bind_print, Ha.
  match goal with
  | |- context [process_video w _ _ _ _ _ ?s0] =>
      pose proof (process_video_true_inv w (arg_input a) (arg_output a)
                    (arg_text a) (arg_font_size a) (arg_font_color a) s0)
        as Hinv
  end.
  destruct (process_video w _ _ _ _ _ _) as [[[|]|e] s']; cbn [fst snd] in *.
  - split; [left; reflexivity|]. intros _.
    destruct (Hinv eq_refl)
      as (p & lines & after & _ & Hp & He & Hz & Hfs & _).
    exists p, lines, after. auto.
  - split; [right; reflexivity | discriminate].
  - split; [right; destruct e; reflexivity | destruct e; discriminate].
Qed.

(** X9: when both version queries complete, the input is found to be an
    existing non-empty regular file, the output directory is found to
    exist and is writable, the look for the destination does not fail,
    ffmpeg on the built command exits with 0 leaving a non-empty output
    file, and the absolute path of the output can be computed,
    [process_video] answers [True]; the run started the two version
    queries and then ffmpeg, once, and ends with the files ffmpeg left. *)
Theorem process_video_succeeds (w : World)
    (input_file output_file text : str) (font_size : Z) (font_color : str)
    (rc0 rc1 : Z) (lines : list str) (after : FS) (existing : bool)
    (location : str) :
  let command :=
    build_command (py "ffmpeg") input_file output_file text font_size
      font_color in
  let run := process_video w input_file output_file text font_size font_color in
  subprocess_run w 0 path_probe = Completed rc0 ->
  subprocess_run w 1 path_probe = Completed rc1 ->
  path_exists (init_fs w) input_file = Ret true ->
  path_is_file (init_fs w) input_file = Ret true ->
  stat_size (init_fs w) input_file = Ret (fs_size (init_fs w) input_file) ->
  fs_size (init_fs w) input_file <> 0%Z ->
  path_exists (init_fs w) (path_parent w output_file) = Ret true ->
  fs_writable (init_fs w) (path_parent w output_file) = true ->
  path_exists (init_fs w) output_file = Ret existing ->
  popen w command = PopenRuns lines (Exits 0 after) ->
  os_path_exists after output_file = true ->
  stat_size after output_file = Ret (fs_size after output_file) ->
  fs_size after output_file <> 0%Z ->
  abspath w output_file = Ret location ->
  result w run = Ret true /\
  spawned (events w run) = [path_probe; path_probe; command] /\
  fs (snd (run (start w))) = after.
Proof.
  intros command run H0 H1 Hi1 Hi2 Hi3 Hi4 Hp1 Hp2 Hex Hpop Ho1 Ho2 Ho3 Hab.
  subst command run. unfold result, events.
  rewrite process_video_stages. cbn [start calls fs out app].
  rewrite (check_ffmpeg_ok w (mkState 0 (init_fs w) started_events)
             rc0 rc1 H0 H1).
  change (py "ffmpeg") with (102%N :: py "fmpeg"). cbv beta iota.
  match goal with
  | |- context [validate_input_file w input_file ?s4] =>
      rewrite (validate_input_file_ok w input_file s4 Hi1 Hi2 Hi3 Hi4)
  end.
  cbn [calls fs out].
  match goal with
  | |- context [validate_output_path w output_file ?s5] =>
      pose proof (validate_output_path_ok w output_file existing s5
                    Hp1 Hp2 Hex) as Hro;
      destruct (validate_output_path_childless w output_file s5)
        as (Hfo & _ & evo & Hoo & Hso);
      destruct (validate_output_path w output_file s5) as [ro s6]
  end.
  cbn [fst snd calls fs out] in *. subst ro.
  match goal with
  | |- context [run_command w ?c output_file ?s7] =>
      change c with (build_command (py "ffmpeg") input_file output_file text
                       font_size font_color);
      rewrite (run_command_success w _ output_file lines after _ location
                 s7 Hpop Ho1 Ho2 Ho3 Hab)
  end.
  cbn [fst snd calls fs out]. split; [reflexivity|]. split; [|reflexivity].
  rewrite Hoo. repeat rewrite spawned_app. rewrite Hso, spawned_progress.
  reflexivity.
Qed.

(** X10: a run starts ffmpeg on the video at most once, and after every
    version query: the children of a run are version queries, followed
    or not by one start of the built command. *)
Theorem ffmpeg_started_at_most_once (w : World)
    (input_file output_file text : str) (font_size : Z) (font_color : str) :
  exists probes,
    Forall is_probe probes /\
    (spawned (events w
       (process_video w input_file output_file text font_size font_color))
     = probes \/
     exists ffmpeg_path,
       spawned (events w
         (process_video w input_file output_file text font_size font_color))
       = probes ++ [build_command ffmpeg_path input_file output_file text
                      font_size font_color]).
Proof.
  unfold events.
  destruct (process_video_cases w input_file output_file text font_size
              font_color (start w))
    as [(_ & evs & Ho & Hp) | (p & s1 & evs & Hrun & _ & Ho & Hp & _)].
  - exists (spawned evs). split; [exact Hp|]. left. rewrite Ho. reflexivity.
  - exists (spawned evs). split; [exact Hp|].
    rewrite Hrun, run_command_spawned, Ho. cbn [start out app].
    destruct (popen w _).
    + left. apply app_nil_r.
    + right. exists p. reflexivity.
Qed.

(** X11: when the first version query cannot be started
    ([FileNotFoundError]) and no fallback applies, the run prints its
    header and the installation instructions and answers [False]; no
    child is started and no file is looked at for validation. *)
Theorem tool_not_found_run (w : World) (e : exn)
    (input_file output_file text : str) (font_size : Z) (font_color : str) :
  subprocess_run w 0 path_probe = NotLaunched e ->
  is_not_found e = true ->
  (platform w = py "win32" ->
   glob w (winget_pattern w) = [] /\
   Forall (fun location => fs_exists (init_fs w) location = false)
     program_files_locations) ->
  result w (process_video w input_file output_file text font_size font_color)
  = Ret false /\
  events w (process_video w input_file output_file text font_size font_color)
  = started_events ++ not_found_events.
Proof.
  intros Hrun He Hfb. unfold result, events.
  rewrite process_video_stages. cbn [start calls fs out app].
  rewrite (check_ffmpeg_not_found w (mkState 0 (init_fs w) started_events)
             e Hrun He Hfb).
  split; reflexivity.
Qed.

(** X12: when the input is missing, not a regular file or empty, or the
    output directory is missing or not writable, the run does not answer
    [True] and never starts ffmpeg on the video. *)
Theorem failed_validation_stops_run (w : World)
    (input_file output_file text : str) (font_size : Z) (font_color : str) :
  fs_exists (init_fs w) input_file = false \/
  fs_is_file (init_fs w) input_file = false \/
  fs_size (init_fs w) input_file = 0%Z \/
  fs_exists (init_fs w) (path_parent w output_file) = false \/
  fs_writable (init_fs w) (path_parent w output_file) = false ->
  result w (process_video w input_file output_file text font_size font_color)
    <> Ret true /\
  Forall is_probe
    (spawned (events w
       (process_video w input_file output_file text font_size font_color))).
Proof.
  intro Hbad. unfold result, events.
  destruct (process_video_cases w input_file output_file text font_size
              font_color (start w))
    as [(Hr & evs & Ho & Hp)
       | (p & s1 & evs & _ & _ & _ & _ & H1 & H2 & _ & H3 & H4 & H5)].
  - split; [exact Hr|]. rewrite Ho. exact Hp.
  - exfalso. cbn [start fs] in *.
    apply path_exists_true in H1. destruct H1 as [_ H1].
    apply path_is_file_true in H2.
    apply path_exists_true in H4. destruct H4 as [_ H4].
    destruct Hbad as [H|[H|[H|[H|H]]]]; congruence.
Qed.

(** X14: when starting ffmpeg, reading its output or waiting for it,
    measuring the output file after an exit with 0, or computing the
    absolute path of a good output, raises an [Exception], the runner
    answers [False] and reports the error: one line for a timeout, else
    the exception's type and text and the traceback; in the last case
    the completion banner, the output file and its size have been printed
    before.  After a failure to start there was no child and the files
    are as before; otherwise they are what the child has left. *)
Theorem run_command_contains_errors (w : World) (command : list str)
    (output_file : str) (e : exn) (s : state) :
  is_Exception e = true ->
  (popen w command = PopenRaises e ->
   run_command w command output_file s =
   (Ret false, mkState (calls s) (fs s) (out s ++ crash_events e))) /\
  (forall lines after,
     popen w command = PopenRuns lines (ReadRaises e after) ->
     run_command w command output_file s =
     (Ret false,
      mkState (calls s) after
        (out s ++ [Spawn command] ++ progress_events lines ++ crash_events e))) /\
  (forall lines after,
     popen w command = PopenRuns lines (Exits 0 after) ->
     os_path_exists after output_file = true ->
     stat_size after output_file = Raise e ->
     run_command w command output_file s =
     (Ret false,
      mkState (calls s) after
        (out s ++ [Spawn command] ++ progress_events lines ++ crash_events e))) /\
  (forall lines after output_size,
     popen w command = PopenRuns lines (Exits 0 after) ->
     os_path_exists after output_file = true ->
     stat_size after output_file = Ret output_size ->
     output_size <> 0%Z ->
     abspath w output_file = Raise e ->
     run_command w command output_file s =
     (Ret false,
      mkState (calls s) after
        (out s ++ [Spawn command] ++ progress_events lines
               ++ completed_events output_file output_size
               ++ crash_events e))).
Proof.
  intro He. split; [|split; [|split]].
  - intro Hp. exact (run_command_popen_raises w _ _ _ s Hp He).
  - intros lines after Hp.
    exact (run_command_read_raises w _ _ _ _ _ s Hp He).
  - intros lines after Hp Hex Hst.
    rewrite (run_command_exit_zero w _ _ _ _ s Hp).
    cbn [verdict Z.eqb negb]. rewrite Hex, Hst. reflexivity.
  - intros lines after n Hp Hex Hst Hz Hab.
    rewrite (run_command_exit_zero w _ _ _ _ s Hp).
    cbn [verdict Z.eqb negb]. apply Z.eqb_neq in Hz.
    rewrite Hex, Hst, Hz, Hab.
    destruct e; try discriminate He; reflexivity.
Qed.

(** ** Further properties: the escaping and the progress lines *)

Lemma escape_char_length (c : char) : (1 <= length (escape_char c))%nat.
Proof.
  unfold escape_char.
  destruct (c =? squote)%N; [cbn; lia|].
  destruct (c =? colon)%N; cbn; lia.
Qed.

Lemma escape_char_length_one (c : char) :
  length (escape_char c) = 1%nat -> c <> squote /\ c <> colon.
Proof.
  unfold escape_char.
  destruct (c =? squote)%N eqn:Hq; [cbn; discriminate|].
  destruct (c =? colon)%N eqn:Hc; [cbn; discriminate|].
  intros _. apply N.eqb_neq in Hq. apply N.eqb_neq in Hc. auto.
Qed.

Lemma escape_char_other (c : char) :
  c <> squote -> c <> colon -> escape_char c = [c].
Proof.
  intros Hq Hc. unfold escape_char.
  apply N.eqb_neq in Hq. apply N.eqb_neq in Hc. rewrite Hq, Hc. reflexivity.
Qed.

Lemma escaped_length_ge (text : str) :
  (length text <= length (flat_map escape_char text))%nat.
Proof.
  induction text as [|c text IH]; [reflexivity|].
  cbn [flat_map]. rewrite length_app. cbn [length].
  pose proof (escape_char_length c). lia.
Qed.

(** No escaped text begins with a colon. *)
Lemma escaped_not_colon_first (text rest : str) :
  flat_map escape_char text <> colon :: rest.
Proof.
  destruct text as [|c text]; [discriminate|].
  cbn [flat_map]. unfold escape_char.
  destruct (c =? squote)%N eqn:Hq; [discriminate|].
  destruct (c =? colon)%N eqn:Hc; [discriminate|].
  cbn [app]. intro H. injection H as H _.
  apply N.eqb_neq in Hc. contradiction.
Qed.

Lemma escaped_injective (t1 t2 : str) :
  flat_map escape_char t1 = flat_map escape_char t2 -> t1 = t2.
Proof.
  revert t2. induction t1 as [|c1 t1 IH]; intros [|c2 t2] H.
  - reflexivity.
  - exfalso. cbn [flat_map] in H. apply (f_equal (@length char)) in H.
    rewrite length_app in H. pose proof (escape_char_length c2).
    cbn [length] in H. lia.
  - exfalso. cbn [flat_map] in H. apply (f_equal (@length char)) in H.
    rewrite length_app in H. pose proof (escape_char_length c1).
    cbn [length] in H. lia.
  - cbn [flat_map] in H. unfold escape_char in H.
    destruct (c1 =? squote)%N eqn:Hq1; destruct (c2 =? squote)%N eqn:Hq2.
    + apply N.eqb_eq in Hq1. apply N.eqb_eq in Hq2. subst c1 c2.
      cbn [app] in H. injection H as H. f_equal. exact (IH _ H).
    + exfalso. destruct (c2 =? colon)%N eqn:Hc2; cbn [app] in H.
      * discriminate H.
      * injection H as H _. apply N.eqb_neq in Hq2. auto.
    + exfalso. destruct (c1 =? colon)%N eqn:Hc1; cbn [app] in H.
      * discriminate H.
      * injection H as H _. apply N.eqb_neq in Hq1. auto.
    + destruct (c1 =? colon)%N eqn:Hc1; destruct (c2 =? colon)%N eqn:Hc2;
        cbn [app] in H.
      * apply N.eqb_eq in Hc1. apply N.eqb_eq in Hc2. subst c1 c2.
        injection H as H. f_equal. exact (IH _ H).
      * exfalso. injection H as _ H. symmetry in H.
        exact (escaped_not_colon_first _ _ H).
      * exfalso. injection H as _ H.
        exact (escaped_not_colon_first _ _ H).
      * injection H as Hc H. subst c2. f_equal. exact (IH _ H).
Qed.

(** X15: the escaping leaves a text as it is exactly when the text holds
    no single quote and no colon. *)
Theorem escape_text_fixed (text : str) :
  escape_text text = text <->
  Forall (fun c => c <> squote /\ c <> colon) text.
Proof.
  rewrite escape_text_flat_map. split.
  - induction text as [|c text IH]; intro H; [constructor|].
    cbn [flat_map] in H.
    assert (Hlen : length (escape_char c) = 1%nat).
    { apply (f_equal (@length char)) in H. rewrite length_app in H.
      cbn [length] in H.
      pose proof (escape_char_length c). pose proof (escaped_length_ge text).
      lia. }
    destruct (escape_char_length_one c Hlen) as [Hq Hc].
    rewrite (escape_char_other c Hq Hc) in H. cbn [app] in H.
    injection H as H. constructor; auto.
  - induction 1 as [|c text [Hq Hc] _ IH]; [reflexivity|].
    cbn [flat_map]. rewrite (escape_char_other c Hq Hc), IH. reflexivity.
Qed.

(** X16: the escaping is injective: two different texts never give the
    same escaped text. *)
Theorem escape_text_injective (t1 t2 : str) :
  escape_text t1 = escape_text t2 -> t1 = t2.
Proof.
  rewrite !escape_text_flat_map. apply escaped_injective.
Qed.

Lemma progress_events_filter (lines : list str) :
  progress_events lines =
  map (fun line => Print (cr ++ firstn 80 (strip line)))
      (filter has_marker lines).
Proof.
  induction lines as [|l lines IH]; [reflexivity|].
  cbn [progress_events flat_map filter]. fold (progress_events lines).
  unfold has_marker at 1.
  destruct (contains (py "time=") l || contains (py "frame=") l);
    cbn [app map]; rewrite IH; reflexivity.
Qed.

(** X17: once ffmpeg is started, the runner prints, while the child
    runs, exactly its output lines that contain [time=] or [frame=], in
    order, each as a carriage return followed by at most 80 characters of
    the stripped line and without a newline; all it prints besides is
    the verdict after the output has ended, so no other line is shown
    while ffmpeg runs. *)
Theorem progress_lines_echoed (w : World) (command : list str)
    (output_file : str) (lines : list str) (fin : child_end) (s : state) :
  popen w command = PopenRuns lines fin ->
  run_command w command output_file s =
  (fst (verdict w output_file lines fin),
   mkState (calls s) (files_left fin)
     (out s ++ [Spawn command]
            ++ map (fun line => Print (cr ++ firstn 80 (strip line)))
                   (filter has_marker lines)
            ++ snd (verdict w output_file lines fin))).
Proof.
  intro Hp. rewrite <- progress_events_filter.
  destruct fin as [e after|returncode after]; cbn [files_left].
  - cbn [verdict]. destruct (is_Exception e) eqn:He.
    + rewrite (run_command_read_raises w _ _ _ _ _ s Hp He).
      destruct e; try discriminate He; reflexivity.
    + destruct e; try discriminate He.
      rewrite (run_command_interrupted w _ _ _ _ s Hp).
      cbn [fst snd]. rewrite app_nil_r. reflexivity.
  - destruct (Z.eq_dec returncode 0) as [->|Hrc].
    + exact (run_command_exit_zero w _ output_file _ _ s Hp).
    + rewrite (run_command_failure w _ output_file _ _ _ s Hp Hrc).
      cbn [verdict]. apply Z.eqb_neq in Hrc. rewrite Hrc. reflexivity.
Qed.

(** ** The further properties at work on the sample worlds *)


Lemma missing_input_lists_media_witness :
  out (snd (validate_input_file Scenario.missing_clip Sample.clip
              (start Scenario.missing_clip))) =
  missing_input_events (py "/home/user") Sample.clip ++
  [ Print (py "  - a.mp4" ++ nl); Print (py "  - c.avi" ++ nl) ].
Proof.
  rewrite (missing_input_lists_media Scenario.missing_clip Sample.clip
             (py "/home/user")
             [py "a.mp4"; py "notes.txt"; py "b.MOV"; py "c.avi"]
             (start Scenario.missing_clip) eq_refl eq_refl eq_refl).
  reflexivity.
Defined.

Lemma missing_input_listing_failure_witness :
  fst (validate_input_file Scenario.unlistable Sample.clip
         (start Scenario.unlistable)) = Ret false.
Proof.
  rewrite (missing_input_listing_failure Scenario.unlistable Sample.clip
             (py "/home/user")
             (OtherException (py "PermissionError") (py "Permission denied"))
             (start Scenario.unlistable) eq_refl eq_refl eq_refl eq_refl).
  reflexivity.
Defined.

Lemma find_ffmpeg_fallback_order_witness :
  result (Scenario.windows [py "C:\winget\a\ffmpeg.exe"; py "C:\winget\b\ffmpeg.exe"])
    (find_ffmpeg (Scenario.windows
                    [py "C:\winget\a\ffmpeg.exe"; py "C:\winget\b\ffmpeg.exe"]))
  = Ret (Some (py "C:\winget\a\ffmpeg.exe")) /\
  result (Scenario.windows [])
    (find_ffmpeg (Scenario.windows []))
  = Ret (Some (py "C:\ffmpeg\bin\ffmpeg.exe")) /\
  result (Scenario.linux_with_windows_files [py "C:\winget\a\ffmpeg.exe"])
    (find_ffmpeg (Scenario.linux_with_windows_files [py "C:\winget\a\ffmpeg.exe"]))
  = Ret None.
Proof.
  split; [|split].
  - refine (proj1 (proj2 (find_ffmpeg_fallback_order
                            (Scenario.windows [py "C:\winget\a\ffmpeg.exe";
                                               py "C:\winget\b\ffmpeg.exe"])
                            (FileNotFoundError (py "not found"))
                            eq_refl eq_refl) eq_refl)
              _ [py "C:\winget\b\ffmpeg.exe"] eq_refl).
  - refine (proj2 (proj2 (proj2 (find_ffmpeg_fallback_order
                                   (Scenario.windows [])
                                   (FileNotFoundError (py "not found"))
                                   eq_refl eq_refl) eq_refl))
              eq_refl eq_refl eq_refl).
  - refine (proj1 (find_ffmpeg_fallback_order
                     (Scenario.linux_with_windows_files
                        [py "C:\winget\a\ffmpeg.exe"])
                     (FileNotFoundError (py "not found"))
                     eq_refl eq_refl) _).
    intro H. vm_compute in H. discriminate H.
Defined.

Lemma first_probe_error_escapes_witness :
  result Sample.denied (find_ffmpeg Sample.denied)
  = Raise (OtherException (py "PermissionError") (py "Permission denied")) /\
  result Sample.denied (main Sample.denied Sample.argv0) = Ret 1%Z.
Proof.
  pose proof (first_probe_error_escapes Sample.denied
                (OtherException (py "PermissionError") (py "Permission denied"))
                eq_refl eq_refl) as (Hfind & _ & _ & Hmain).
  split; [exact Hfind|].
  exact (Hmain Sample.argv0 _ eq_refl).
Defined.

Lemma check_ffmpeg_returns_iff_witness :
  result Sample.odd_status (check_ffmpeg Sample.odd_status)
  = Ret (Some (py "ffmpeg")).
Proof.
  apply (proj2 (check_ffmpeg_returns_iff Sample.odd_status (py "ffmpeg"))).
  split; [reflexivity|]. exists 1%Z. reflexivity.
Defined.

Lemma process_video_true_sound_witness :
  exists ffmpeg_path lines after,
    result Sample.good (check_ffmpeg Sample.good) = Ret (Some ffmpeg_path) /\
    popen Sample.good
      (build_command ffmpeg_path Sample.clip Sample.outfile Sample.hello 48
         (py "white"))
    = PopenRuns lines (Exits 0 after) /\
    fs_exists after Sample.outfile = true /\
    fs_size after Sample.outfile <> 0%Z.
Proof.
  destruct (process_video_true_sound Sample.good Sample.clip Sample.outfile
              Sample.hello 48 (py "white"))
    as (p & lines & after & H1 & H2 & H3 & H4 & _).
  - vm_compute. reflexivity.
  - exists p, lines, after. auto.
Defined.

Lemma main_zero_sound_witness :
  exists ffmpeg_path lines after,
    popen Sample.good
      (build_command ffmpeg_path Sample.clip Sample.outfile Sample.hello 48
         (py "white"))
    = PopenRuns lines (Exits 0 after) /\
    fs_exists after Sample.outfile = true /\
    fs_size after Sample.outfile <> 0%Z /\
    fs (snd (main Sample.good Sample.argv0 (start Sample.good))) = after.
Proof.
  refine (proj2 (main_zero_sound Sample.good Sample.argv0 _ eq_refl) _).
  vm_compute. reflexivity.
Defined.

Lemma process_video_succeeds_witness :
  result Sample.good
    (process_video Sample.good Sample.clip Sample.outfile Sample.hello 48
       (py "white")) = Ret true.
Proof.
  refine (proj1 (process_video_succeeds Sample.good Sample.clip Sample.outfile
                   Sample.hello 48 (py "white") 0 0 Sample.ffmpeg_lines
                   Sample.files_after false (py "/home/user/out.mp4")
                   _ _ _ _ _ _ _ _ _ _ _ _ _ _));
    try reflexivity; discriminate.
Defined.

Lemma tool_not_found_run_witness :
  events Sample.not_installed
    (process_video Sample.not_installed Sample.clip Sample.outfile
       Sample.hello 48 (py "white"))
  = started_events ++ not_found_events.
Proof.
  refine (proj2 (tool_not_found_run Sample.not_installed
                   (FileNotFoundError (py "No such file or directory"))
                   Sample.clip Sample.outfile Sample.hello 48 (py "white")
                   eq_refl eq_refl _)).
  intro H. vm_compute in H. discriminate H.
Defined.

Lemma failed_validation_stops_run_witness :
  Forall is_probe
    (spawned (events Scenario.no_parent
       (process_video Scenario.no_parent Sample.clip Sample.outfile
          Sample.hello 48 (py "white")))).
Proof.
  refine (proj2 (failed_validation_stops_run Scenario.no_parent Sample.clip
                   Sample.outfile Sample.hello 48 (py "white") _)).
  do 3 right. left. reflexivity.
Defined.

Lemma run_command_contains_errors_witness :
  fst (run_command Scenario.launch_fails [py "ffmpeg"] Sample.outfile
         (start Scenario.launch_fails)) = Ret false.
Proof.
  rewrite (proj1 (run_command_contains_errors Scenario.launch_fails
                    [py "ffmpeg"] Sample.outfile
                    (OtherException (py "OSError") (py "Exec format error"))
                    (start Scenario.launch_fails) eq_refl) eq_refl).
  reflexivity.
Defined.

Lemma escape_text_fixed_witness :
  escape_text (py "Hi") = py "Hi".
Proof.
  apply (proj2 (escape_text_fixed (py "Hi"))).
  repeat (constructor; [split; discriminate|]). constructor.
Defined.

Lemma escape_text_injective_witness :
  py "a:b" = py "a:b".
Proof.
  exact (escape_text_injective (py "a:b") (py "a:b") eq_refl).
Defined.

Lemma progress_lines_echoed_witness :
  out (snd (run_command Sample.good [py "ffmpeg"] Sample.outfile
              (start Sample.good))) =
  [ Spawn [py "ffmpeg"];
    Print (cr ++ py "frame=  240 fps= 60 time=00:00:08.00 bitrate= 100kbits/s") ]
  ++ success_events Sample.outfile 4096 (py "/home/user/out.mp4").
Proof.
  rewrite (progress_lines_echoed Sample.good [py "ffmpeg"] Sample.outfile
             Sample.ffmpeg_lines (Exits 0 Sample.files_after)
             (start Sample.good) eq_refl).
  reflexivity.
Defined.

(** ** Further properties: interrupts and the number of children *)

Lemma traceless_ret {A} (a : A) : traceless (ret a).
Proof. intro s. exists []. cbn. rewrite app_nil_r. split; constructor. Qed.

Lemma traceless_raise {A} (e : exn) : traceless (@raise A e).
Proof. intro s. exists []. cbn. rewrite app_nil_r. split; constructor. Qed.

Lemma traceless_print (x : str) : traceless (print x).
Proof.
  intro s. exists [Print (x ++ nl)]. cbn. split; [reflexivity|].
  repeat constructor.
Qed.

Lemma traceless_get_fs : traceless get_fs.
Proof. intro s. exists []. cbn. rewrite app_nil_r. split; constructor. Qed.

Lemma traceless_bind {A B} (m : M A) (k : A -> M B) :
  traceless m -> (forall a, traceless (k a)) -> traceless (bind m k).
Proof.
  intros Hm Hk s. unfold bind.
  destruct (Hm s) as (evs & Ho & Hq).
  destruct (m s) as [[a|e] s1]; cbn [snd] in *.
  - destruct (Hk a s1) as (evs' & Ho' & Hq').
    exists (evs ++ evs'). rewrite Ho', Ho, app_assoc.
    split; [reflexivity | apply Forall_app; split; assumption].
  - exists evs. split; assumption.
Qed.

Lemma traceless_try {A} (m : M A) (h : exn -> option (M A)) :
  traceless m -> (forall e k, h e = Some k -> traceless k) ->
  traceless (try_except m h).
Proof.
  intros Hm Hh s. unfold try_except.
  destruct (Hm s) as (evs & Ho & Hq).
  destruct (m s) as [[a|e] s1]; cbn [snd] in *.
  - exists evs. split; assumption.
  - destruct (h e) as [k|] eqn:He.
    + destruct (Hh e k He s1) as (evs' & Ho' & Hq').
      exists (evs ++ evs'). rewrite Ho', Ho, app_assoc.
      split; [reflexivity | apply Forall_app; split; assumption].
    + exists evs. split; assumption.
Qed.

Lemma traceless_for_each {A} (xs : list A) (body : A -> M unit) :
  (forall x, traceless (body x)) -> traceless (for_each xs body).
Proof.
  intro Hb. induction xs as [|x xs IH]; cbn [for_each].
  - apply traceless_ret.
  - apply traceless_bind; [apply Hb | intros _; exact IH].
Qed.

Lemma traceless_if {A} (b : bool) (m1 m2 : M A) :
  traceless m1 -> traceless m2 -> traceless (if b then m1 else m2).
Proof. destruct b; auto. Qed.

Create HintDb traces.
#[local] Hint Resolve traceless_ret traceless_raise traceless_print
  traceless_get_fs : traces.

Ltac traceless_step :=
  first
    [ apply traceless_bind; [|intro]
    | apply traceless_if
    | apply traceless_for_each; intro
    | solve [auto with traces] ].

Section Traces.

Variable w : World.

Lemma run_probe_traceless (argv : list str) : traceless (run_probe w argv).
Proof.
  intro s. unfold run_probe.
  destruct (subprocess_run w (calls s) argv); cbn [snd out].
  - exists []. rewrite app_nil_r. split; constructor.
  - eexists. split; [reflexivity|]. repeat constructor.
  - eexists. split; [reflexivity|]. repeat constructor.
Qed.

Lemma check_ffmpeg_traceless : traceless (check_ffmpeg w).
Proof.
  unfold check_ffmpeg, find_ffmpeg.
  apply traceless_bind.
  - apply traceless_bind.
    + apply traceless_try.
      * apply traceless_bind; [apply run_probe_traceless | intro; auto with traces].
      * intros e k H. destruct e; inversion H; auto with traces.
    + intros [p|]; [auto with traces|].
      destruct (str_eqb (platform w) (py "win32")); [|auto with traces].
      destruct (glob w (winget_pattern w)); [|auto with traces].
      repeat traceless_step.
  - intros [p|].
    + apply traceless_try.
      * apply traceless_bind; [apply run_probe_traceless | intro].
        repeat traceless_step.
      * intros e k H. destruct e; inversion H; repeat traceless_step.
    + repeat traceless_step.
Qed.

Lemma validate_input_file_traceless (input_file : str) :
  traceless (validate_input_file w input_file).
Proof.
  unfold validate_input_file.
  apply traceless_bind; [auto with traces | intro files].
  repeat apply traceless_if; repeat traceless_step.
  apply traceless_try.
  - destruct (listdir w (py ".")); repeat traceless_step.
  - intros e k H. destruct (is_Exception e); inversion H. auto with traces.
Qed.

Lemma validate_output_path_traceless (output_file : str) :
  traceless (validate_output_path w output_file).
Proof.
  unfold validate_output_path.
  apply traceless_bind; [auto with traces | intro files].
  repeat apply traceless_if; repeat traceless_step.
Qed.

Lemma progress_events_traceless (lines : list str) :
  Forall no_traceback (progress_events lines).
Proof.
  rewrite progress_events_filter. apply Forall_forall.
  intros ev Hin. apply in_map_iff in Hin. destruct Hin as (l & <- & _).
  exact I.
Qed.

(** The runner, when it raises, has printed no traceback. *)
Lemma run_command_raise_traceless (command : list str) (output_file : str)
    (s : state) (e : exn) :
  fst (run_command w command output_file s) = Raise e ->
  exists evs,
    out (snd (run_command w command output_file s)) = out s ++ evs /\
    Forall no_traceback evs.
Proof.
  intro Hr.
  destruct (run_command_raise_inv w _ _ _ _ Hr)
    as (-> & [Hp | [(lines & after & Hp) | (lines & after & n & _ & Hrun)]]).
  - unfold run_command, try_except. rewrite Hp. cbn [raise snd].
    exists []. rewrite app_nil_r. split; constructor.
  - rewrite (run_command_interrupted w _ _ _ _ s Hp). cbn [snd out].
    exists ([Spawn command] ++ progress_events lines).
    split; [reflexivity|].
    apply Forall_app. split; [repeat constructor|].
    apply progress_events_traceless.
  - rewrite Hrun. cbn [snd out].
    exists ([Spawn command] ++ progress_events lines
              ++ completed_events output_file n).
    split; [reflexivity|].
    apply Forall_app. split; [repeat constructor|].
    apply Forall_app. split; [apply progress_events_traceless|].
    repeat constructor.
Qed.

(** A run of [process_video] that raises has printed no traceback. *)
Lemma process_video_raise_traceless
    (input_file output_file text : str) (font_size : Z) (font_color : str)
    (s : state) (e : exn) :
  fst (process_video w input_file output_file text font_size font_color s)
  = Raise e ->
  exists evs,
    out (snd (process_video w input_file output_file text font_size
                font_color s)) = out s ++ evs /\
    Forall no_traceback evs.
Proof.
  rewrite process_video_stages.
  destruct (check_ffmpeg_traceless
              (mkState (calls s) (fs s) (out s ++ started_events)))
    as (evc & Hoc & Hqc).
  cbn [out] in Hoc.
  assert (Hstart : Forall no_traceback started_events)
    by (repeat constructor).
  destruct (check_ffmpeg w _) as [[[[|ch tool]|]|e0] s4];
    cbn [fst snd] in *; try discriminate.
  - destruct (validate_input_file_traceless input_file s4) as (evi & Hoi & Hqi).
    destruct (validate_input_file w input_file s4) as [[[|]|e1] s5];
      cbn [fst snd] in *; try discriminate.
    + destruct (validate_output_path_traceless output_file s5)
        as (evo & Hoo & Hqo).
      destruct (validate_output_path w output_file s5) as [[[|]|e2] s6];
        cbn [fst snd] in *; try discriminate.
      * intro Hr.
        destruct (run_command_raise_traceless _ _ _ _ Hr) as (evr & Hor & Hqr).
        cbn [out] in Hor.
        exists (started_events ++ evc ++ evi ++ evo
                ++ info_events input_file output_file text font_size font_color
                ++ evr).
        rewrite Hor, Hoo, Hoi, Hoc. repeat rewrite <- app_assoc.
        split; [reflexivity|].
        repeat (apply Forall_app; split; [assumption|]).
        apply Forall_app. split; [repeat constructor | assumption].
      * intros _. exists (started_events ++ evc ++ evi ++ evo).
        rewrite Hoo, Hoi, Hoc. repeat rewrite <- app_assoc.
        split; [reflexivity|].
        repeat (apply Forall_app; split; [assumption|]). assumption.
    + intros _. exists (started_events ++ evc ++ evi).
      rewrite Hoi, Hoc. repeat rewrite <- app_assoc.
      split; [reflexivity|].
      repeat (apply Forall_app; split; [assumption|]). assumption.
  - intros _. exists (started_events ++ evc).
    rewrite Hoc. repeat rewrite <- app_assoc.
    split; [reflexivity|].
    apply Forall_app. split; assumption.
Qed.

End Traces.

(** X18: when the pipeline is stopped by a keyboard interrupt, [main]
    exits with 1, its last line is the interruption notice, and the whole
    run has printed no traceback. *)
Theorem interrupt_prints_no_traceback (w : World) (argv : list str) (a : Args) :
  parse_args w argv = Parsed a ->
  fst (process_video w (arg_input a) (arg_output a) (arg_text a)
         (arg_font_size a) (arg_font_color a) (after_banner w))
  = Raise KeyboardInterrupt ->
  result w (main w argv) = Ret 1%Z /\
  Forall no_traceback (events w (main w argv)) /\
  exists before, events w (main w argv) = before ++ [interrupted_event].
Proof.
  intros Ha Hr. unfold result, events, main. rewrite !bind_print, Ha.
  cbn [start calls fs out app]. fold banner_events. fold (after_banner w).
  destruct (process_video_raise_traceless w _ _ _ _ _ _ _ Hr)
    as (evs & Ho & Hq).
  destruct (process_video w _ _ _ _ _ (after_banner w)) as [r s'].
  cbn [fst snd] in *. subst r.
  cbn [bind print emit ret fst snd out].
  split; [reflexivity|]. split.
  - rewrite Ho. cbn [after_banner out].
    repeat (apply Forall_app; split); try assumption; repeat constructor.
  - exists (out s'). reflexivity.
Qed.

Section ChildCount.

Variable w : World.


End ChildCount.


Lemma interrupt_prints_no_traceback_witness :
  result Sample.interrupted (main Sample.interrupted Sample.argv0) = Ret 1%Z /\
  Forall no_traceback
    (events Sample.interrupted (main Sample.interrupted Sample.argv0)).
Proof.
  destruct (interrupt_prints_no_traceback Sample.interrupted Sample.argv0
              (mkArgs Sample.clip Sample.outfile Sample.hello 48 (py "white")))
    as (Hres & Hquiet & _).
  - reflexivity.
  - vm_compute. reflexivity.
  - split; assumption.
Defined.
